(** * The medical-records chat bot of [main.py]: model and properties

    The development follows the source file top to bottom: the string
    built-ins the handlers call, dates, the session dictionary
    ([context.user_data]), the two SQLite tables, every handler of
    [MedicalBot], and the handler registration of [MedicalBot.run] as a
    dispatch function.  Texts are [string]s holding the UTF-8 bytes of the
    Python [str]. *)

From Stdlib Require Import ZArith Ascii String List Bool Lia.
From stdpp Require Import gmap strings list fin_maps pretty.

Local Open Scope string_scope.
Local Open Scope Z_scope.

(* ===================================================================== *)
(** * Python string built-ins *)
(* ===================================================================== *)

Module PyStr.

(** [prefix_rest p s]: what is left of [s] behind its prefix [p]
    ([s.startswith(p)], with the rest). *)
Fixpoint prefix_rest (p s : string) : option string :=
  match p with
  | EmptyString => Some s
  | String a p' =>
      match s with
      | EmptyString => None
      | String b s' => if Ascii.eqb a b then prefix_rest p' s' else None
      end
  end.

Definition startswith (p s : string) : bool :=
  match prefix_rest p s with Some _ => true | None => false end.

(** [sub in s] for a non-empty [sub]. *)
Fixpoint contains (sub s : string) : bool :=
  match s with
  | EmptyString => startswith sub EmptyString
  | String _ s' => startswith sub s || contains sub s'
  end.

(** [s.split(sep)] for a non-empty [sep]: the separators are found left
    to right and do not overlap.  [skip] counts the bytes of a separator
    still to be passed over, [cur] is the current piece, reversed. *)
Fixpoint split_go (sep : string) (skip : nat) (cur : string) (s : string)
  : list string :=
  match s with
  | EmptyString => [String.rev cur]
  | String c s' =>
      match skip with
      | S k => split_go sep k cur s'
      | O =>
          if startswith sep s
          then String.rev cur :: split_go sep (Nat.pred (String.length sep)) EmptyString s'
          else split_go sep O (String c cur) s'
      end
  end.

Definition split (sep s : string) : list string :=
  split_go sep O EmptyString s.

(** [s.lower()].  The letters A-Z are mapped; no code point outside
    ASCII is touched, so on texts with cased letters beyond ASCII this is
    [str.lower] only up to those letters. *)
Definition lower_ascii (c : ascii) : ascii :=
  let n := nat_of_ascii c in
  if (Nat.leb 65 n && Nat.leb n 90)%bool then ascii_of_nat (n + 32) else c.

Fixpoint lower (s : string) : string :=
  match s with
  | EmptyString => EmptyString
  | String c s' => String (lower_ascii c) (lower s')
  end.

Definition bytes (l : list nat) : string :=
  fold_right (fun n s => String (ascii_of_nat n) s) EmptyString l.

(** The code points [str.isspace] accepts, each in UTF-8:
    U+0009..U+000D, U+001C..U+0020, U+0085, U+00A0, U+1680,
    U+2000..U+200A, U+2028, U+2029, U+202F, U+205F, U+3000. *)
Definition whitespace : list string :=
  map bytes
    [ [9%nat]; [10%nat]; [11%nat]; [12%nat]; [13%nat];
      [28%nat]; [29%nat]; [30%nat]; [31%nat]; [32%nat];
      [194; 133]%nat; [194; 160]%nat; [225; 154; 128]%nat;
      [226; 128; 128]%nat; [226; 128; 129]%nat; [226; 128; 130]%nat;
      [226; 128; 131]%nat; [226; 128; 132]%nat; [226; 128; 133]%nat;
      [226; 128; 134]%nat; [226; 128; 135]%nat; [226; 128; 136]%nat;
      [226; 128; 137]%nat; [226; 128; 138]%nat; [226; 128; 168]%nat;
      [226; 128; 169]%nat; [226; 128; 175]%nat; [226; 129; 159]%nat;
      [227; 128; 128]%nat ].

(** The rest of [s] behind the first of [ps] that is a prefix of it. *)
Fixpoint drop_any (ps : list string) (s : string) : option string :=
  match ps with
  | [] => None
  | p :: ps' =>
      match prefix_rest p s with
      | Some r => Some r
      | None => drop_any ps' s
      end
  end.

(** Drop leading members of [ps]; at most [n] of them. *)
Fixpoint drop_leading (ps : list string) (n : nat) (s : string) : string :=
  match n with
  | O => s
  | S n' =>
      match drop_any ps s with
      | Some r => drop_leading ps n' r
      | None => s
      end
  end.

Definition lstrip (s : string) : string :=
  drop_leading whitespace (String.length s) s.

Definition rstrip (s : string) : string :=
  String.rev
    (drop_leading (map String.rev whitespace) (String.length s) (String.rev s)).

(** [s.strip()]. *)
Definition strip (s : string) : string := rstrip (lstrip s).

Definition digit (c : ascii) : option Z :=
  let n := nat_of_ascii c in
  if (Nat.leb 48 n && Nat.leb n 57)%bool then Some (Z.of_nat (n - 48)) else None.

(** ** [int(s)]

    [int] of a [str] works on code points: it first turns every space
    and every decimal digit of any script into its ASCII counterpart,
    then reads an ASCII literal. *)

Definition byte (c : ascii) : Z := Z.of_nat (nat_of_ascii c).

(** The payload of a UTF-8 continuation byte. *)
Definition continuation (c : ascii) : option Z :=
  let b := byte c in
  if ((128 <=? b) && (b <=? 191))%bool then Some (b - 128) else None.

(** The code points of a text.  [None] for bytes that are no UTF-8: no
    [str] has them. *)
Fixpoint code_points (s : string) : option (list Z) :=
  match s with
  | EmptyString => Some []
  | String c0 r0 =>
      let b0 := byte c0 in
      if b0 <? 128 then cons b0 <$> code_points r0
      else if b0 <? 194 then None
      else if b0 <? 224 then
        match r0 with
        | String c1 r1 =>
            x1 ← continuation c1;
            cons ((b0 - 192) * 64 + x1) <$> code_points r1
        | _ => None
        end
      else if b0 <? 240 then
        match r0 with
        | String c1 (String c2 r2) =>
            x1 ← continuation c1;
            x2 ← continuation c2;
            let cp := ((b0 - 224) * 64 + x1) * 64 + x2 in
            if ((2048 <=? cp) && negb ((55296 <=? cp) && (cp <=? 57343)))%bool
            then cons cp <$> code_points r2
            else None
        | _ => None
        end
      else if b0 <? 245 then
        match r0 with
        | String c1 (String c2 (String c3 r3)) =>
            x1 ← continuation c1;
            x2 ← continuation c2;
            x3 ← continuation c3;
            let cp := (((b0 - 240) * 64 + x1) * 64 + x2) * 64 + x3 in
            if ((65536 <=? cp) && (cp <=? 1114111))%bool
            then cons cp <$> code_points r3
            else None
        | _ => None
        end
      else None
  end.

(** [Py_UNICODE_ISSPACE] beyond ASCII: U+0085, U+00A0, U+1680,
    U+2000..U+200A, U+2028, U+2029, U+202F, U+205F, U+3000. *)
Definition unicode_space (cp : Z) : bool :=
  existsb (Z.eqb cp) [133; 160; 5760; 8232; 8233; 8239; 8287; 12288]
  || ((8192 <=? cp) && (cp <=? 8202)).

(** The code points of decimal value 0 in the Unicode data of the
    interpreter (14.0, CPython 3.11), from U+0030 to U+1FBF0; the nine
    code points behind each have the values 1 to 9. *)
Definition decimal_zeros : list Z :=
    [ 48; 1632; 1776; 1984; 2406; 2534; 2662; 2790;
      2918; 3046; 3174; 3302; 3430; 3558; 3664; 3792;
      3872; 4160; 4240; 6112; 6160; 6470; 6608; 6784;
      6800; 6992; 7088; 7232; 7248; 42528; 43216; 43264;
      43472; 43504; 43600; 44016; 65296; 66720; 68912; 69734;
      69872; 69942; 70096; 70384; 70736; 70864; 71248; 71360;
      71472; 71904; 72016; 72784; 73040; 73120; 92768; 92864;
      93008; 120782; 120792; 120802; 120812; 120822; 123200; 123632;
      125264; 130032 ].

(** [Py_UNICODE_TODECIMAL] *)
Definition decimal (cp : Z) : option Z :=
  (fun zero => cp - zero)
    <$> find (fun zero => (zero <=? cp) && (cp <? zero + 10))%bool decimal_zeros.

(** One code point of [_PyUnicode_TransformDecimalAndSpaceToASCII]:
    ASCII stays, a space beyond ASCII becomes a blank, a decimal digit
    its ASCII digit; at any other code point the text is cut short with
    a question mark, and never reads as an integer ([None]). *)
Definition to_ascii (cp : Z) : option ascii :=
  if cp <? 127 then Some (ascii_of_nat (Z.to_nat cp))
  else if unicode_space cp then Some " "%char
  else (fun d => ascii_of_nat (Z.to_nat (48 + d))) <$> decimal cp.

Definition decimal_and_space_to_ascii (s : string) : option string :=
  cps ← code_points s;
  string_of_list_ascii <$> mapM to_ascii cps.

(** [Py_ISSPACE]: tab to carriage return, and the blank. *)
Definition ascii_space (c : ascii) : bool :=
  let n := nat_of_ascii c in
  (Nat.leb 9 n && Nat.leb n 13) || Nat.eqb n 32.

Fixpoint lstrip_ascii (s : string) : string :=
  match s with
  | String c r => if ascii_space c then lstrip_ascii r else s
  | EmptyString => EmptyString
  end.

Definition rstrip_ascii (s : string) : string :=
  String.rev (lstrip_ascii (String.rev s)).

(** The digits of an integer literal: single underscores may stand
    between digits.  [acc] is the value read so far, [prev] tells
    whether the previous character was a digit. *)
Fixpoint digits_go (acc : Z) (prev : bool) (s : string) : option Z :=
  match s with
  | EmptyString => if prev then Some acc else None
  | String c s' =>
      match digit c with
      | Some d => digits_go (10 * acc + d) true s'
      | None =>
          if (Ascii.eqb c "_" && prev)%bool then digits_go acc false s'
          else None
      end
  end.

Fixpoint count_digits (s : string) : nat :=
  match s with
  | EmptyString => O
  | String c s' => match digit c with Some _ => 1 | None => 0 end + count_digits s'
  end.

(** [sys.get_int_max_str_digits()], the interpreter's default. *)
Definition max_str_digits : nat := 4300.

(** A run of digits, refused when it has more digits than
    [max_str_digits]. *)
Definition digits (s : string) : option Z :=
  if Nat.ltb max_str_digits (count_digits s) then None else digits_go 0 false s.

(** [PyLong_FromString] in base 10: blanks around the literal are
    dropped, one sign is allowed. *)
Definition long_from_string (s : string) : option Z :=
  match rstrip_ascii (lstrip_ascii s) with
  | String "-" r => Z.opp <$> digits r
  | String "+" r => digits r
  | r => digits r
  end.

(** [int(s)]: [Some n] for the value, [None] for [ValueError]. *)
Definition py_int (s : string) : option Z :=
  decimal_and_space_to_ascii s ≫= long_from_string.

(** [str(n)] of an integer, as f-strings print it. *)
Definition str_of_int (n : Z) : string := pretty n.

End PyStr.

(* ===================================================================== *)
(** * Dates *)
(* ===================================================================== *)

(** What [datetime.now()] and SQLite's [CURRENT_TIMESTAMP] give. *)
Record datetime := mk_datetime {
  year : nat; month : nat; day : nat;
  hour : nat; minute : nat; second : nat
}.

(** Decimal digits of [n], padded with zeros to [w] places. *)
Definition zero_pad (w : nat) (n : nat) : string :=
  let d := pretty n in
  PyStr.bytes (repeat 48%nat (w - String.length d)) +:+ d.

(** [d.strftime("%d-%m-%Y")], as the C library of Linux prints it: day
    and month in two digits, the year in as many digits as it has (year
    999 gives [999]). *)
Definition strftime_dmy (d : datetime) : string :=
  zero_pad 2 (day d) +:+ "-" +:+ zero_pad 2 (month d) +:+ "-" +:+ pretty (year d).

(** [d.date().isoformat()], the year in four digits: the text sqlite3
    stores for a [date] parameter and hands back when the column is
    read. *)
Definition isoformat (d : datetime) : string :=
  zero_pad 4 (year d) +:+ "-" +:+ zero_pad 2 (month d) +:+ "-" +:+ zero_pad 2 (day d).

(** Order of [created_at] values; the order of their texts
    [YYYY-MM-DD HH:MM:SS]. *)
Definition datetime_key (d : datetime) : list nat :=
  [year d; month d; day d; hour d; minute d; second d].

Fixpoint lex_ltb (a b : list nat) : bool :=
  match a, b with
  | x :: a', y :: b' => Nat.ltb x y || (Nat.eqb x y && lex_ltb a' b')
  | [], _ :: _ => true
  | _, _ => false
  end.

Definition created_before (a b : datetime) : bool :=
  lex_ltb (datetime_key a) (datetime_key b).

Definition same_date (a b : datetime) : bool :=
  (Nat.eqb (year a) (year b) && Nat.eqb (month a) (month b) && Nat.eqb (day a) (day b))%bool.

(** The shape [DD-MM-YYYY]: two digits, a dash, two digits, a dash, four
    digits. *)
Definition is_digit (c : ascii) : bool :=
  match PyStr.digit c with Some _ => true | None => false end.

Definition is_dd_mm_yyyy (s : string) : bool :=
  match s with
  | String d1 (String d2 (String "-" (String m1 (String m2 (String "-"
      (String y1 (String y2 (String y3 (String y4 EmptyString))))))))) =>
      forallb is_digit [d1; d2; m1; m2; y1; y2; y3; y4]
  | _ => false
  end.

(* ===================================================================== *)
(** * Data model *)
(* ===================================================================== *)

(** Conversation states, [range(6)] in the source. *)
Inductive State :=
| PATIENT_NAME | PATIENT_AGE | PATIENT_PHONE
| PATIENT_DIAGNOSIS | PRESCRIPTION_INPUT | CONFIRM_PRESCRIPTION.

Global Instance State_eq_dec : EqDecision State.
Proof. solve_decision. Defined.

(** What a handler returns: a state, [ConversationHandler.END], or
    nothing. *)
Inductive Next :=
| To (s : State)
| END
| NoReturn.

(** One entry of the [medications] list: a dict with these four keys. *)
Record Medication := mk_med {
  name : string;
  dosage : string;
  quantity : string;
  instructions : string
}.

Global Instance Medication_eq_dec : EqDecision Medication.
Proof. solve_decision. Defined.

(** Values kept in [context.user_data]. *)
Inductive value :=
| VStr (s : string)
| VInt (n : Z)
| VMeds (l : list Medication).

(** SQLite integers are 64-bit. *)
Definition fits_int64 (n : Z) : bool :=
  (Z.leb (- 2 ^ 63) n && Z.ltb n (2 ^ 63))%bool.

(** A value of an [INTEGER PRIMARY KEY] column, the rowid: an integer of
    64 bits. *)
Record rowid := mk_rowid {
  rowid_Z : Z;
  rowid_fits : Is_true (fits_int64 rowid_Z)
}.

Definition to_rowid (n : Z) : option rowid :=
  match decide (Is_true (fits_int64 n)) with
  | left H => Some (mk_rowid n H)
  | right _ => None
  end.

(** The rowid written [n], for an [n] of 64 bits. *)
Definition key (n : Z) : rowid := default (mk_rowid 0 I) (to_rowid n).

(** Table [patients]; [p_key] is the column [id]. *)
Record PatientRow := mk_patient {
  p_key : rowid;
  p_name : string;
  p_age : Z;
  p_phone : string;
  p_telegram_user_id : Z;
  p_created_at : datetime
}.

Definition p_id (p : PatientRow) : Z := rowid_Z (p_key p).

(** Table [prescriptions]; [rx_key] is the column [id].
    [rx_medications] is the list whose JSON text the column holds; the
    two dates are the ISO texts sqlite3 writes. *)
Record PrescriptionRow := mk_prescription {
  rx_key : rowid;
  rx_patient_id : Z;
  rx_diagnosis : string;
  rx_admission_date : string;
  rx_discharge_date : string;
  rx_medications : list Medication;
  rx_created_at : datetime
}.

Definition rx_id (rx : PrescriptionRow) : Z := rowid_Z (rx_key rx).

Record DB := mk_db {
  patients : list PatientRow;
  prescriptions : list PrescriptionRow
}.

Definition empty_db : DB := mk_db [] [].

(** Reply keyboards. *)
Inductive Markup :=
| NoMarkup
| ReplyKeyboardMarkup (keyboard : list (list string))
| ReplyKeyboardRemove.

(** A message sent with [reply_text].  The statistics report is kept as
    its three counts: its text also prints a floating-point quotient. *)
Inductive Reply :=
| Message (body : string) (reply_markup : Markup) (markdown : bool)
| StatisticsReport (patient_count prescription_count today_prescriptions : Z).

(** An inbound update, a new text message in a private chat: sender,
    text, and the command name when Telegram marks the text as starting
    with a bot command addressed to this bot ([Some ""] standing for a
    command of another bot); [now] is [datetime.now()],
    [current_timestamp] the database clock.  Sending a reply always
    succeeds. *)
Record Update := mk_update {
  effective_user : Z;
  text : string;
  command : option string;
  now : datetime;
  current_timestamp : datetime
}.

(* ===================================================================== *)
(** * Handler monad: state and exceptions *)
(* ===================================================================== *)

Inductive exn :=
| KeyError (key : string)
| TypeError
| OverflowError
| OperationalError
| IllShaped (key : string).

Inductive Result (A : Type) :=
| Ok (a : A)
| Raise (e : exn).
Arguments Ok {A} a.
Arguments Raise {A} e.

(** What a handler can read and change: the sender's [user_data], the
    database file, and the messages sent so far in this turn. *)
Record World := mk_world {
  user_data : gmap string value;
  database : DB;
  outbox : list Reply
}.

Definition M (A : Type) : Type := World -> World * Result A.

Global Instance M_ret : MRet M := fun A a w => (w, Ok a).
Global Instance M_bind : MBind M := fun A B f m w =>
  match m w with
  | (w', Ok a) => f a w'
  | (w', Raise e) => (w', Raise e)
  end.

Definition raise {A} (e : exn) : M A := fun w => (w, Raise e).

Definition reply_text (body : string) (markup : Markup) (markdown : bool) : M unit :=
  fun w => (mk_world (user_data w) (database w)
              (outbox w ++ [Message body markup markdown]), Ok tt).

Definition send (r : Reply) : M unit :=
  fun w => (mk_world (user_data w) (database w) (outbox w ++ [r]), Ok tt).

(** [context.user_data[k] = v] *)
Definition set_item (k : string) (v : value) : M unit :=
  fun w => (mk_world (<[k := v]> (user_data w)) (database w) (outbox w), Ok tt).

(** [context.user_data[k]] *)
Definition get_item (k : string) : M value :=
  fun w => match user_data w !! k with
           | Some v => (w, Ok v)
           | None => (w, Raise (KeyError k))
           end.

(** Every key is written with one type of value only; a read that finds
    another shape is outside the program's behaviours and reported as
    [IllShaped] (never reached, see [well_shaped]). *)
Definition get_str (k : string) : M string :=
  v ← get_item k;
  match v with VStr s => mret s | _ => raise (IllShaped k) end.

Definition get_int (k : string) : M Z :=
  v ← get_item k;
  match v with VInt n => mret n | _ => raise (IllShaped k) end.

Definition get_meds (k : string) : M (list Medication) :=
  v ← get_item k;
  match v with VMeds l => mret l | _ => raise (IllShaped k) end.

Definition get_db : M DB := fun w => (w, Ok (database w)).

Definition put_db (d : DB) : M unit :=
  fun w => (mk_world (user_data w) d (outbox w), Ok tt).

(** sqlite3 raises [OverflowError] when a Python [int] parameter does
    not fit the 64 bits of an SQLite integer. *)
Definition bind_int (n : Z) : M Z :=
  if fits_int64 n then mret n else raise OverflowError.

(* ===================================================================== *)
(** * Queries on the two tables *)
(* ===================================================================== *)

(** The rowid an [AUTOINCREMENT] key gets: one more than the largest so
    far, and 1 at least (no row is ever deleted by this program, so the
    largest so far is the largest in the table).  There is none once the
    largest rowid, 2^63 - 1, is taken: the insert then fails with
    [SQLITE_FULL], which sqlite3 raises as
    [OperationalError('database or disk is full')]. *)
Definition next_rowid (ids : list Z) : option rowid :=
  to_rowid (1 + foldr Z.max 0 ids).

(** [ORDER BY created_at DESC].  Rows with equal [created_at] keep their
    table order; SQL leaves that order open. *)
Fixpoint insert_desc {A} (key : A -> datetime) (x : A) (l : list A) : list A :=
  match l with
  | [] => [x]
  | y :: l' =>
      if created_before (key x) (key y) then y :: insert_desc key x l'
      else x :: l
  end.

Definition order_by_created_desc {A} (key : A -> datetime) (l : list A) : list A :=
  foldr (insert_desc key) [] l.

Definition patients_of (uid : Z) (d : DB) : list PatientRow :=
  filter (fun p => p_telegram_user_id p = uid) (patients d).

(** [... WHERE telegram_user_id = ? ORDER BY created_at DESC LIMIT n] *)
Definition recent_patients (uid : Z) (n : nat) (d : DB) : list PatientRow :=
  take n (order_by_created_desc p_created_at (patients_of uid d)).

(** [SELECT ... FROM patients WHERE id = ?], [fetchone()] *)
Definition patient_by_id (id : Z) (d : DB) : option PatientRow :=
  head (filter (fun p => p_id p = id) (patients d)).

(** [prescriptions p JOIN patients pt ON p.patient_id = pt.id
    WHERE pt.telegram_user_id = ?]: each prescription with its patient. *)
Definition prescriptions_of (uid : Z) (d : DB) : list (PrescriptionRow * PatientRow) :=
  omap (fun rx =>
          match patient_by_id (rx_patient_id rx) d with
          | Some pt => if decide (p_telegram_user_id pt = uid) then Some (rx, pt) else None
          | None => None
          end)
       (prescriptions d).

Definition recent_prescriptions (uid : Z) (n : nat) (d : DB)
  : list (PrescriptionRow * PatientRow) :=
  take n (order_by_created_desc (fun r => rx_created_at (fst r)) (prescriptions_of uid d)).

(** SQLite's [LIKE]: [%] stands for any run of characters, [_] for one
    character (a UTF-8 lead byte with its continuation bytes), letters of
    ASCII compare without case. *)
Definition is_continuation (c : ascii) : bool :=
  let n := nat_of_ascii c in (Nat.leb 128 n && Nat.leb n 191)%bool.

Fixpoint skip_continuation (s : string) : string :=
  match s with
  | EmptyString => EmptyString
  | String c s' => if is_continuation c then skip_continuation s' else s
  end.

Fixpoint like (pattern s : string) : bool :=
  match pattern with
  | EmptyString => match s with EmptyString => true | _ => false end
  | String c p' =>
      if Ascii.eqb c "%" then
        (fix any_run (s : string) : bool :=
           like p' s ||
           match s with
           | EmptyString => false
           | String _ s' => any_run s'
           end) s
      else
        match s with
        | EmptyString => false
        | String d s' =>
            if Ascii.eqb c "_" then like p' (skip_continuation s')
            else Ascii.eqb (PyStr.lower_ascii c) (PyStr.lower_ascii d) && like p' s'
        end
  end.

(** [WHERE (name LIKE ? OR phone LIKE ?) AND telegram_user_id = ?] with
    both patterns [%term%]; rows come in table order. *)
Definition search_patients (uid : Z) (term : string) (d : DB) : list PatientRow :=
  let pattern := "%" +:+ term +:+ "%" in
  filter (fun p => (like pattern (p_name p) || like pattern (p_phone p)) = true
                   /\ p_telegram_user_id p = uid)
         (patients d).

(** [INSERT INTO patients (name, age, phone, telegram_user_id)], commit,
    [cursor.lastrowid]. *)
Definition insert_patient (nm : string) (age : Z) (phone : string) (uid : Z)
    (ts : datetime) : M Z :=
  d ← get_db;
  match next_rowid (p_id <$> patients d) with
  | None => raise OperationalError
  | Some id =>
      put_db (mk_db (patients d ++ [mk_patient id nm age phone uid ts]) (prescriptions d));;
      mret (rowid_Z id)
  end.

(** [INSERT INTO prescriptions (patient_id, diagnosis, admission_date,
    discharge_date, medications)], commit, [cursor.lastrowid].  Foreign
    keys are not enforced (SQLite's default). *)
Definition insert_prescription (pid : Z) (diagnosis : string) (today : datetime)
    (meds : list Medication) (ts : datetime) : M Z :=
  d ← get_db;
  match next_rowid (rx_id <$> prescriptions d) with
  | None => raise OperationalError
  | Some id =>
      put_db (mk_db (patients d)
                (prescriptions d ++
                   [mk_prescription id pid diagnosis (isoformat today) (isoformat today)
                      meds ts]));;
      mret (rowid_Z id)
  end.

(* ===================================================================== *)
(** * The handlers of [MedicalBot] *)
(* ===================================================================== *)

Definition nl : string := "
".
Definition dquote : string := String (ascii_of_nat 34) EmptyString.

Definition ADD_NEW_PATIENT : string := "👤 Add New Patient".
Definition VIEW_PATIENTS : string := "📋 View Patients".
Definition CREATE_PRESCRIPTION : string := "💊 Create Prescription".
Definition VIEW_PRESCRIPTIONS : string := "📊 View Prescriptions".
Definition SEARCH_PATIENT : string := "🔍 Search Patient".
Definition STATISTICS : string := "📈 Statistics".
Definition MAIN_MENU : string := "🏠 Main Menu".
Definition NEW_PRESCRIPTION : string := "💊 New Prescription".
Definition CANCEL_SELECTION : string := "🚫 Cancel".
Definition CONFIRM_AND_SAVE : string := "✅ Confirm & Save".
Definition CANCEL_CHOICE : string := "❌ Cancel".
Definition EDIT : string := "✏️ Edit".

Definition main_keyboard : Markup :=
  ReplyKeyboardMarkup
    [ [ADD_NEW_PATIENT; VIEW_PATIENTS];
      [CREATE_PRESCRIPTION; VIEW_PRESCRIPTIONS];
      [SEARCH_PATIENT; STATISTICS] ].

Definition welcome_text : string := "
🏥 **Medical Management Bot**

Welcome to the Medical Bot! I can help you:

👤 Manage patient records
💊 Create and manage prescriptions
📋 View patient history
🔍 Search through records
📊 Generate reports

Choose an option from the menu below:
".

Definition start (u : Update) : M Next :=
  reply_text welcome_text main_keyboard true;;
  mret NoReturn.

Definition add_patient_start (u : Update) : M Next :=
  reply_text ("🏥 **Adding New Patient**" +:+ nl +:+ nl +:+ "Please enter the patient's full name:")
    NoMarkup true;;
  mret (To PATIENT_NAME).

Definition patient_name (u : Update) : M Next :=
  set_item "patient_name" (VStr (text u));;
  reply_text ("Patient Name: **" +:+ text u +:+ "**" +:+ nl +:+ nl +:+ "Please enter the patient's age:")
    NoMarkup true;;
  mret (To PATIENT_AGE).

Definition patient_age (u : Update) : M Next :=
  match PyStr.py_int (text u) with
  | Some age =>
      set_item "patient_age" (VInt age);;
      reply_text ("Age: **" +:+ PyStr.str_of_int age +:+ "** years" +:+ nl +:+ nl
                  +:+ "Please enter the patient's phone number:")
        NoMarkup true;;
      mret (To PATIENT_PHONE)
  | None =>
      reply_text "Please enter a valid age (number only):" NoMarkup false;;
      mret (To PATIENT_AGE)
  end.

Definition patient_phone (u : Update) : M Next :=
  set_item "patient_phone" (VStr (text u));;
  nm ← get_str "patient_name";
  age ← get_int "patient_age";
  phone ← get_str "patient_phone";
  bind_int age;;
  patient_id ← insert_patient nm age phone (effective_user u) (current_timestamp u);
  set_item "current_patient_id" (VInt patient_id);;
  reply_text ("
✅ **Patient Added Successfully!**

👤 **Name:** " +:+ nm +:+ "
🎂 **Age:** " +:+ PyStr.str_of_int age +:+ " years
📱 **Phone:** " +:+ phone +:+ "
🆔 **Patient ID:** " +:+ PyStr.str_of_int patient_id +:+ "

Would you like to create a prescription for this patient?
")
    (ReplyKeyboardMarkup [[CREATE_PRESCRIPTION; MAIN_MENU]]) true;;
  mret END.

Definition patient_choice (p : PatientRow) : string :=
  p_name p +:+ " (Age: " +:+ PyStr.str_of_int (p_age p) +:+ ") - ID: "
  +:+ PyStr.str_of_int (p_id p).

Definition create_prescription_start (u : Update) : M Next :=
  d ← get_db;
  let found := recent_patients (effective_user u) 10 d in
  match found with
  | [] =>
      reply_text "❌ No patients found. Please add a patient first."
        (ReplyKeyboardMarkup [[ADD_NEW_PATIENT]]) false;;
      mret END
  | _ =>
      let keyboard := (((fun p => [patient_choice p]) <$> found) ++ [[CANCEL_SELECTION]])%list in
      reply_text "👤 **Select Patient for Prescription:**"
        (ReplyKeyboardMarkup keyboard) true;;
      mret (To PATIENT_DIAGNOSIS)
  end.

Definition cancel (u : Update) : M Next :=
  reply_text "❌ Operation cancelled. Back to main menu." main_keyboard false;;
  mret END.

Definition ID_MARKER : string := "ID: ".

Definition patient_diagnosis (u : Update) : M Next :=
  if decide (text u = CANCEL_SELECTION) then cancel u
  else
    match PyStr.split ID_MARKER (text u) !! 1%nat with
    | None (* IndexError *) =>
        reply_text "Please select a patient from the list above." NoMarkup false;;
        mret (To PATIENT_DIAGNOSIS)
    | Some piece =>
        match PyStr.py_int piece with
        | None (* ValueError *) =>
            reply_text "Please select a patient from the list above." NoMarkup false;;
            mret (To PATIENT_DIAGNOSIS)
        | Some patient_id =>
            set_item "selected_patient_id" (VInt patient_id);;
            reply_text ("🏥 **Enter Diagnosis:**" +:+ nl +:+ nl
                        +:+ "Example: Acute gastritis with H. pylori infection")
              ReplyKeyboardRemove true;;
            mret (To PRESCRIPTION_INPUT)
        end
    end.

Definition prescription_template : string := "
💊 **Enter Prescription Details**

**Format for each medication:**
```
Medication Name | Dosage | Quantity | Instructions
```

**Example:**
```
Doxycycline 100mg | 100mg | 28 tablets | Take 1 tablet twice daily after meals for 14 days

Metronidazole 500mg | 500mg | 42 tablets | Take 1 tablet three times daily after meals for 14 days

Esomeprazole 40mg | 40mg | 28 tablets | Take 1 tablet twice daily before meals for 14 days

Bismuth 525mg | 525mg | 56 tablets | Take 1 tablet four times daily with meals and at bedtime for 14 days
```

**H. pylori Quadruple Therapy Template:**
Send " +:+ dquote +:+ "h.pylori" +:+ dquote +:+ " for quick H. pylori prescription template.

Please enter your prescription:
".

Definition prescription_input (u : Update) : M Next :=
  set_item "diagnosis" (VStr (text u));;
  reply_text prescription_template NoMarkup true;;
  mret (To CONFIRM_PRESCRIPTION).

(** The canned list sent for [h.pylori]. *)
Definition h_pylori_medications : list Medication :=
  [ mk_med "Doxycycline 100mg" "100mg" "28 tablets"
      "Take 1 tablet twice daily (morning and evening) after meals for 14 days";
    mk_med "Metronidazole 500mg" "500mg" "42 tablets"
      "Take 1 tablet three times daily (morning, lunch, evening) after meals for 14 days";
    mk_med "Esomeprazole 40mg" "40mg" "28 tablets"
      "Take 1 tablet twice daily (morning and evening) before meals for 14 days";
    mk_med "Bismuth 525mg" "525mg" "56 tablets"
      "Take 1 tablet four times daily (morning, lunch, evening, bedtime) with meals for 14 days" ].

(** One turn of the loop over [lines] in [confirm_prescription]: the
    list [medications] after the line was looked at. *)
Definition parse_line (medications : list Medication) (line : string)
  : list Medication :=
  if PyStr.contains "|" line then
    let parts := PyStr.strip <$> PyStr.split "|" line in
    match parts with
    | [p0; p1; p2; p3] => (medications ++ [mk_med p0 p1 p2 p3])%list
    | _ => medications
    end
  else medications.

(** The first half of [confirm_prescription]: the value of [medications]
    when the [if not medications] test is reached. *)
Definition parse_medications (message_text : string) : list Medication :=
  let prescription_text := PyStr.lower message_text in
  if decide (prescription_text = "h.pylori") then h_pylori_medications
  else
    let lines := PyStr.split nl (PyStr.strip message_text) in
    foldl parse_line [] lines.

Definition INVALID_FORMAT : string :=
  "❌ Invalid prescription format. Please follow the example format or send 'h.pylori' for template.".

Definition preview_entry (i : nat) (med : Medication) : string :=
  "
**" +:+ pretty i +:+ ". " +:+ name med +:+ "**
   • Dosage: " +:+ dosage med +:+ "
   • Quantity: " +:+ quantity med +:+ "
   • Instructions: " +:+ instructions med +:+ "
".

Definition confirm_prescription (u : Update) : M Next :=
  let medications := parse_medications (text u) in
  match medications with
  | [] =>
      reply_text INVALID_FORMAT NoMarkup false;;
      mret (To CONFIRM_PRESCRIPTION)
  | _ =>
      set_item "medications" (VMeds medications);;
      let today := strftime_dmy (now u) in
      selected ← get_int "selected_patient_id";
      bind_int selected;;
      d ← get_db;
      match patient_by_id selected d with
      | None => raise TypeError
      | Some patient =>
          diagnosis ← get_str "diagnosis";
          let header := "
📋 **Prescription Preview**

**Patient:** " +:+ p_name patient +:+ " (Age: " +:+ PyStr.str_of_int (p_age patient) +:+ ")
**Diagnosis:** " +:+ diagnosis +:+ "
**Date:** " +:+ today +:+ "

**Medications:**
" in
          let prescription_preview :=
            foldl String.app header (imap (fun i med => preview_entry (S i) med) medications) in
          reply_text prescription_preview
            (ReplyKeyboardMarkup [[CONFIRM_AND_SAVE; CANCEL_CHOICE; EDIT]]) true;;
          mret (To CONFIRM_PRESCRIPTION)
      end
  end.

Definition save_prescription (u : Update) : M Next :=
  if decide (text u = CONFIRM_AND_SAVE) then
    let today := now u in
    medications ← get_meds "medications";
    selected ← get_int "selected_patient_id";
    diagnosis ← get_str "diagnosis";
    bind_int selected;;
    prescription_id ←
      insert_prescription selected diagnosis today medications (current_timestamp u);
    reply_text ("
✅ **Prescription Saved Successfully!**

📋 **Prescription ID:** " +:+ PyStr.str_of_int prescription_id +:+ "
📅 **Date:** " +:+ strftime_dmy today +:+ "

The prescription has been saved to the database.

**Next Steps:**
• Print prescription for patient
• Schedule follow-up appointment
• Monitor treatment progress
")
      (ReplyKeyboardMarkup [[MAIN_MENU; NEW_PRESCRIPTION]]) true;;
    mret END
  else if decide (text u = EDIT) then
    reply_text "✏️ Please enter the corrected prescription:" ReplyKeyboardRemove false;;
    mret (To CONFIRM_PRESCRIPTION)
  else (* Cancel *)
    cancel u.

Definition patient_entry (patient : PatientRow) : string :=
  "
**" +:+ p_name patient +:+ "** (ID: " +:+ PyStr.str_of_int (p_id patient) +:+ ")
🎂 Age: " +:+ PyStr.str_of_int (p_age patient) +:+ " years
📱 Phone: " +:+ p_phone patient +:+ "
📅 Added: " +:+ strftime_dmy (p_created_at patient) +:+ "
---
".

Definition view_patients (u : Update) : M Next :=
  d ← get_db;
  match recent_patients (effective_user u) 20 d with
  | [] =>
      reply_text "❌ No patients found." NoMarkup false;;
      mret NoReturn
  | found =>
      let patients_text :=
        foldl String.app ("👥 **Patient List:**" +:+ nl +:+ nl) (patient_entry <$> found) in
      reply_text patients_text NoMarkup true;;
      mret NoReturn
  end.

Definition prescription_entry (rx : PrescriptionRow * PatientRow) : string :=
  let med_count := length (rx_medications (fst rx)) in
  "
**Prescription #" +:+ PyStr.str_of_int (rx_id (fst rx)) +:+ "**
👤 Patient: " +:+ p_name (snd rx) +:+ "
🏥 Diagnosis: " +:+ rx_diagnosis (fst rx) +:+ "
📅 Date: " +:+ rx_admission_date (fst rx) +:+ "
💊 Medications: " +:+ pretty med_count +:+ " items
---
".

Definition view_prescriptions (u : Update) : M Next :=
  d ← get_db;
  match recent_prescriptions (effective_user u) 10 d with
  | [] =>
      reply_text "❌ No prescriptions found." NoMarkup false;;
      mret NoReturn
  | found =>
      let prescriptions_text :=
        foldl String.app ("📋 **Recent Prescriptions:**" +:+ nl +:+ nl)
          (prescription_entry <$> found) in
      reply_text prescriptions_text NoMarkup true;;
      mret NoReturn
  end.

Definition search_patient (u : Update) : M Next :=
  reply_text ("🔍 **Patient Search**" +:+ nl +:+ nl
              +:+ "Enter patient name or phone number to search:")
    ReplyKeyboardRemove false;;
  mret NoReturn.

Definition search_entry (patient : PatientRow) : string :=
  "
**" +:+ p_name patient +:+ "** (ID: " +:+ PyStr.str_of_int (p_id patient) +:+ ")
🎂 Age: " +:+ PyStr.str_of_int (p_age patient) +:+ " years  
📱 Phone: " +:+ p_phone patient +:+ "
---
".

Definition handle_search (u : Update) : M Next :=
  let search_term := PyStr.strip (text u) in
  d ← get_db;
  match search_patients (effective_user u) search_term d with
  | [] =>
      reply_text ("❌ No patients found matching '" +:+ search_term +:+ "'") NoMarkup false;;
      mret NoReturn
  | results =>
      let results_text :=
        foldl String.app
          ("🔍 **Search Results for '" +:+ search_term +:+ "':**" +:+ nl +:+ nl)
          (search_entry <$> results) in
      reply_text results_text NoMarkup true;;
      mret NoReturn
  end.

Definition statistics (u : Update) : M Next :=
  d ← get_db;
  let uid := effective_user u in
  let patient_count := Z.of_nat (length (patients_of uid d)) in
  let prescription_count := Z.of_nat (length (prescriptions_of uid d)) in
  let today_prescriptions :=
    Z.of_nat (length (filter (fun r => same_date (rx_created_at (fst r)) (now u) = true)
                        (prescriptions_of uid d))) in
  send (StatisticsReport patient_count prescription_count today_prescriptions);;
  mret NoReturn.

Definition button_handler (u : Update) : M Next :=
  let t := text u in
  if decide (t = ADD_NEW_PATIENT) then add_patient_start u
  else if decide (t = VIEW_PATIENTS) then view_patients u;; mret NoReturn
  else if decide (t = CREATE_PRESCRIPTION) then create_prescription_start u
  else if decide (t = VIEW_PRESCRIPTIONS) then view_prescriptions u;; mret NoReturn
  else if decide (t = SEARCH_PATIENT) then search_patient u;; mret NoReturn
  else if decide (t = STATISTICS) then statistics u;; mret NoReturn
  else if decide (t = MAIN_MENU) then start u;; mret NoReturn
  else mret NoReturn.

(* ===================================================================== *)
(** * [MedicalBot.run]: registration and dispatch *)
(* ===================================================================== *)

(** The methods of [MedicalBot] that take an update. *)
Inductive Handler :=
| h_start | h_add_patient_start | h_patient_name | h_patient_age
| h_patient_phone | h_create_prescription_start | h_patient_diagnosis
| h_prescription_input | h_confirm_prescription | h_save_prescription
| h_view_patients | h_view_prescriptions | h_search_patient
| h_handle_search | h_statistics | h_cancel | h_button_handler.

Global Instance Handler_eq_dec : EqDecision Handler.
Proof. solve_decision. Defined.

Definition call (h : Handler) : Update -> M Next :=
  match h with
  | h_start => start
  | h_add_patient_start => add_patient_start
  | h_patient_name => patient_name
  | h_patient_age => patient_age
  | h_patient_phone => patient_phone
  | h_create_prescription_start => create_prescription_start
  | h_patient_diagnosis => patient_diagnosis
  | h_prescription_input => prescription_input
  | h_confirm_prescription => confirm_prescription
  | h_save_prescription => save_prescription
  | h_view_patients => view_patients
  | h_view_prescriptions => view_prescriptions
  | h_search_patient => search_patient
  | h_handle_search => handle_search
  | h_statistics => statistics
  | h_cancel => cancel
  | h_button_handler => button_handler
  end.

(** The [states] table of the [ConversationHandler]. *)
Definition states (s : State) : Handler :=
  match s with
  | PATIENT_NAME => h_patient_name
  | PATIENT_AGE => h_patient_age
  | PATIENT_PHONE => h_patient_phone
  | PATIENT_DIAGNOSIS => h_patient_diagnosis
  | PRESCRIPTION_INPUT => h_prescription_input
  | CONFIRM_PRESCRIPTION => h_save_prescription
  end.

(** [filters.Regex(r'^label$')]: [re.search] finds the label as the whole
    text, or as the whole text before one final line break. *)
Definition regex_whole (label t : string) : bool :=
  bool_decide (t = label) || bool_decide (t = label +:+ nl).

(** [entry_points]: plain texts only reach them (a command starts with a
    slash). *)
Definition entry_points (u : Update) : option Handler :=
  if regex_whole ADD_NEW_PATIENT (text u) then Some h_add_patient_start
  else if regex_whole CREATE_PRESCRIPTION (text u) then Some h_create_prescription_start
  else None.

(** How an update reaches a handler: through [conv_handler], whose
    handlers' return values move the conversation, or through a handler
    added to the application itself. *)
Inductive Route :=
| InConversation (h : Handler)
| Direct (h : Handler).

Definition handler_of (r : Route) : Handler :=
  match r with InConversation h => h | Direct h => h end.

(** The three handlers of group 0 in the order [run] adds them; the first
    that accepts the update handles it.  [st] is the sender's conversation
    state, [None] outside a conversation.  A [CommandHandler] compares
    the lower-cased name of the command; no letter beyond ASCII becomes a
    letter of [start] or [cancel] in lower case, so [PyStr.lower] decides
    these comparisons as [str.lower] does. *)
Definition route (st : option State) (u : Update) : option Route :=
  match command u with
  | Some c =>
      if decide (PyStr.lower c = "start") then Some (Direct h_start)
      else
        match st with
        | Some _ =>
            if decide (PyStr.lower c = "cancel") then Some (InConversation h_cancel)
            else None
        | None => None
        end
  | None =>
      match st with
      | Some s => Some (InConversation (states s))
      | None =>
          match entry_points u with
          | Some h => Some (InConversation h)
          | None => Some (Direct h_button_handler)
          end
      end
  end.

(** The bot between two updates: the conversation state and the
    [user_data] of each user (private chats: one conversation per user),
    and the database file. *)
Record Bot := mk_bot {
  conversations : gmap Z State;
  sessions : gmap Z (gmap string value);
  storage : DB
}.

(** What one update produced: the messages sent, and the exception the
    handler raised, if any (the library logs it and goes on). *)
Record Outcome := mk_outcome {
  replies : list Reply;
  raised : option exn
}.

Definition session_of (b : Bot) (uid : Z) : gmap string value :=
  default ∅ (sessions b !! uid).

(** Run the handler behind [r].  Its changes to [user_data] and to the
    database stay whether it returns or raises; the conversation moves
    only when a conversation handler returns a state or [END]. *)
Definition handle (r : Route) (u : Update) (b : Bot) : Bot * Outcome :=
  let uid := effective_user u in
  let '(w, res) := call (handler_of r) u (mk_world (session_of b uid) (storage b) []) in
  let conversations' :=
    match r, res with
    | InConversation _, Ok (To s) => <[uid := s]> (conversations b)
    | InConversation _, Ok END => delete uid (conversations b)
    | _, _ => conversations b
    end in
  (mk_bot conversations' (<[uid := user_data w]> (sessions b)) (database w),
   mk_outcome (outbox w) (match res with Ok _ => None | Raise e => Some e end)).

Definition process_update (u : Update) (b : Bot) : Bot * Outcome :=
  match route (conversations b !! effective_user u) u with
  | Some r => handle r u b
  | None => (b, mk_outcome [] None)
  end.

(** A run of the bot over a list of updates, with the outcome of each. *)
Fixpoint run (us : list Update) (b : Bot) : Bot * list Outcome :=
  match us with
  | [] => (b, [])
  | u :: us' =>
      let '(b1, o) := process_update u b in
      let '(b2, os) := run us' b1 in
      (b2, o :: os)
  end.

(** A freshly started process: no conversation, no [user_data], the
    database file as found. *)
Definition started (d : DB) : Bot := mk_bot ∅ ∅ d.

(** Handlers invoked in any order, registered or not. *)
Fixpoint invoke (steps : list (Route * Update)) (b : Bot) : Bot :=
  match steps with
  | [] => b
  | (r, u) :: steps' => invoke steps' (fst (handle r u b))
  end.

(* ===================================================================== *)
(** * Statements, invariants and sample data *)
(* ===================================================================== *)

(** ** The parser *)

(** The entry a line stands for, in the words of the specification: a
    line of exactly four pipe-separated segments gives the entry of its
    trimmed segments, any other line gives none. *)
Definition line_entry (line : string) : option Medication :=
  match PyStr.split "|" line with
  | [a; b; c; d] =>
      Some (mk_med (PyStr.strip a) (PyStr.strip b) (PyStr.strip c) (PyStr.strip d))
  | _ => None
  end.

(** The claim about the template keyword as the specification words it:
    the text is trimmed and its case ignored before the comparison. *)
Definition template_after_trim : Prop :=
  forall message_text : string,
    PyStr.lower (PyStr.strip message_text) = "h.pylori" ->
    parse_medications message_text = h_pylori_medications.

(** ** Sample inputs *)

Definition sample_block : string := "see below
 Aspirin 100mg | 100mg | 10 tablets | once daily 
no pipe here
a | b | c
Zinc|20mg|5 tablets|at night".

Definition sample_time : datetime := mk_datetime 2026 11 3 10 30 0.

Definition message (uid : Z) (t : string) : Update :=
  mk_update uid t None sample_time sample_time.

Definition slash (uid : Z) (c : string) : Update :=
  mk_update uid ("/" +:+ c) (Some c) sample_time sample_time.

Definition sample_chatter : Update := message 5 "take two aspirin".

Definition sample_world : World :=
  mk_world {["diagnosis" := VStr "flu"]} empty_db [].

(** ** Selecting a patient *)

Definition SELECT_AGAIN : Reply :=
  Message "Please select a patient from the list above." NoMarkup false.

Definition ENTER_DIAGNOSIS : Reply :=
  Message ("🏥 **Enter Diagnosis:**" +:+ nl +:+ nl
           +:+ "Example: Acute gastritis with H. pylori infection")
    ReplyKeyboardRemove true.

Definition CANCELLED : Reply :=
  Message "❌ Operation cancelled. Back to main menu." main_keyboard false.

(** The identifier a choice text carries: the piece between the first
    marker and the next one (or the end of the text), read as an
    integer. *)
Definition selected_id (choice : string) : option Z :=
  PyStr.split ID_MARKER choice !! 1%nat ≫= PyStr.py_int.

(** The claim about patient selection as the specification words it,
    the cancel choice set aside as the specification does: the marker is
    located in the chosen text and what remains behind it is read as an
    integer; when it is one, it is stored as the selected patient and
    the session advances, when it is not, state and [user_data] stay and
    the operator is asked again. *)
Definition remainder_selects : Prop :=
  forall (u : Update) (w : World) (head rest : string),
    text u <> CANCEL_SELECTION ->
    text u = head +:+ ID_MARKER +:+ rest ->
    PyStr.contains ID_MARKER head = false ->
    patient_diagnosis u w =
      match PyStr.py_int rest with
      | Some patient_id =>
          (mk_world (<["selected_patient_id" := VInt patient_id]> (user_data w))
             (database w) (outbox w ++ [ENTER_DIAGNOSIS]),
           Ok (To PRESCRIPTION_INPUT))
      | None =>
          (mk_world (user_data w) (database w) (outbox w ++ [SELECT_AGAIN]),
           Ok (To PATIENT_DIAGNOSIS))
      end.

(** A choice text with two markers. *)
Definition two_markers : Update := message 5 "Jane Doe - ID: 7 ID: 8".

Definition sample_choice : Update := message 5 "Jane Doe (Age: 40) - ID: 7".

(** The characters of [str(n)]: digits and the minus sign. *)
Definition numeral_char (c : ascii) : bool := is_digit c || Ascii.eqb c "-".

Fixpoint all_numeral (s : string) : bool :=
  match s with
  | EmptyString => true
  | String c r => numeral_char c && all_numeral r
  end.

(** A choice of the patient keyboard up to its marker. *)
Definition choice_head (p : PatientRow) : string :=
  p_name p +:+ " (Age: " +:+ PyStr.str_of_int (p_age p) +:+ ") - ".

(** The dates [datetime] can hold. *)
Definition calendar (d : datetime) : Prop :=
  1 <= Z.of_nat (year d) <= 9999 /\
  1 <= Z.of_nat (month d) <= 12 /\
  1 <= Z.of_nat (day d) <= 31.

Definition two_digits (s : string) : bool :=
  match s with
  | String a (String b EmptyString) => is_digit a && is_digit b
  | _ => false
  end.

Definition four_digits (s : string) : bool :=
  match s with
  | String a (String b (String c (String d EmptyString))) =>
      is_digit a && is_digit b && is_digit c && is_digit d
  | _ => false
  end.

(** ** Invariants *)

(** [keeps I m]: the computation [m] leaves the world inside [I], whether
    it returns or raises. *)
Definition keeps {A} (I : World -> Prop) (m : M A) : Prop :=
  forall w, I w -> I (fst (m w)).

(** No empty list under [medications]. *)
Definition medications_nonempty (ud : gmap string value) : Prop :=
  forall l, ud !! "medications" = Some (VMeds l) -> l <> [].

(** The world a handler starts in when [u] arrives at [b]. *)
Definition world_of (b : Bot) (u : Update) : World :=
  mk_world (session_of b (effective_user u)) (storage b) [].

(** [P] holds of every user's [user_data]. *)
Definition all_sessions (P : gmap string value -> Prop) (b : Bot) : Prop :=
  forall uid, P (session_of b uid).

(** ** Sample runs *)

(** A sub-flow in which a prescription is persisted, with the handlers
    called in the order their prompts suggest. *)
Definition authoring : list (Route * Update) :=
  [ (InConversation h_add_patient_start, message 5 ADD_NEW_PATIENT);
    (InConversation h_patient_name, message 5 "Jane Doe");
    (InConversation h_patient_age, message 5 "40");
    (InConversation h_patient_phone, message 5 "555-1234");
    (InConversation h_create_prescription_start, message 5 CREATE_PRESCRIPTION);
    (InConversation h_patient_diagnosis, message 5 "Jane Doe (Age: 40) - ID: 1");
    (InConversation h_prescription_input, message 5 "Acute gastritis");
    (InConversation h_confirm_prescription, message 5 "h.pylori");
    (InConversation h_save_prescription, message 5 CONFIRM_AND_SAVE) ].

(** A database with one patient of operator 5, and the bot after that
    operator chose the patient and gave a diagnosis. *)
Definition clinic : DB :=
  mk_db [mk_patient (key 1) "Jane Doe" 40 "555-1234" 5 sample_time] [].

Definition before_review : list Update :=
  [ message 5 CREATE_PRESCRIPTION;
    message 5 "Jane Doe (Age: 40) - ID: 1";
    message 5 "Acute gastritis" ].

Definition in_review : Bot := fst (run before_review (started clinic)).

Definition replacement : Update :=
  message 5 "Aspirin 100mg | 100mg | 10 tablets | once daily".

(** ** Cancelling *)

(** The claim about cancelling as the specification words it: [/cancel]
    in a conversation ends it and leaves the sender's [user_data]
    empty. *)
Definition cancel_clears_session : Prop :=
  forall (b : Bot) (u : Update) (s : State),
    conversations b !! effective_user u = Some s ->
    command u = Some "cancel" ->
    conversations (fst (process_update u b)) !! effective_user u = None /\
    session_of (fst (process_update u b)) (effective_user u) = ∅.

(** The requests that cancel a conversation in state [s]: the [/cancel]
    command in every state, the cancel choice of the patient keyboard in
    [PATIENT_DIAGNOSIS], the cancel choice of the preview keyboard in
    [CONFIRM_PRESCRIPTION]. *)
Definition cancel_request (s : State) (u : Update) : Prop :=
  command u = Some "cancel"
  \/ (command u = None /\ s = PATIENT_DIAGNOSIS /\ text u = CANCEL_SELECTION)
  \/ (command u = None /\ s = CONFIRM_PRESCRIPTION /\ text u = CANCEL_CHOICE).

Definition after_search_prompt : Bot :=
  fst (run [message 5 SEARCH_PATIENT] (started clinic)).

(** The bot after a prescription was saved on 3 November 2026. *)
Definition archive : Bot := invoke authoring (started empty_db).

(** ** Shapes of the values in [user_data] *)

(** Each key holds one kind of value. *)
Definition shape_of (k : string) (v : value) : Prop :=
  match v with
  | VStr _ => k ∈ ["patient_name"; "patient_phone"; "diagnosis"]
  | VInt _ => k ∈ ["patient_age"; "current_patient_id"; "selected_patient_id"]
  | VMeds _ => k = "medications"
  end.

Definition well_shaped (ud : gmap string value) : Prop :=
  forall k v, ud !! k = Some v -> shape_of k v.

Definition not_ill_shaped {A} (r : Result A) : Prop :=
  match r with
  | Raise (IllShaped _) => False
  | _ => True
  end.

(** [shaped m]: from a well-shaped [user_data], [m] ends in one and does
    not read a value of the wrong shape. *)
Definition shaped {A} (m : M A) : Prop :=
  forall w, well_shaped (user_data w) ->
    well_shaped (user_data (fst (m w))) /\ not_ill_shaped (snd (m w)).

(** ** Handlers that only answer *)

(** The handlers that neither write [user_data] nor the database. *)
Definition answers_only (h : Handler) : bool :=
  match h with
  | h_start | h_add_patient_start | h_create_prescription_start
  | h_view_patients | h_view_prescriptions | h_search_patient
  | h_handle_search | h_statistics | h_cancel | h_button_handler => true
  | _ => false
  end.

Definition sample_listing : World := mk_world {["diagnosis" := VStr "flu"]} clinic [].

(** ** Registering a patient *)


Definition sample_clock : datetime * datetime := (sample_time, sample_time).



(** The bot after a name and an age of 2^63 were entered. *)
Definition awaiting_phone : Bot :=
  fst (run [ message 5 ADD_NEW_PATIENT; message 5 "Jane Doe";
             message 5 "9223372036854775808" ] (started empty_db)).

(** Name and age were entered, the phone is awaited. *)
Definition before_phone : list Update :=
  [ message 5 ADD_NEW_PATIENT; message 5 "Jane Doe"; message 5 "40" ].

(** ** Choosing from the keyboard *)

(** The label, then one row of the keyboard it brings up. *)
Definition choosing (uid : Z) (p : PatientRow) (c0 c1 : datetime * datetime)
  : list Update :=
  [ mk_update uid CREATE_PRESCRIPTION None (fst c0) (snd c0);
    mk_update uid (patient_choice p) None (fst c1) (snd c1) ].

(** The keyboard [create_prescription_start] sends for these patients. *)
Definition patient_keyboard (found : list PatientRow) : Reply :=
  Message "👤 **Select Patient for Prescription:**"
    (ReplyKeyboardMarkup (((fun p => [patient_choice p]) <$> found) ++ [[CANCEL_SELECTION]]))
    true.

(** ** Searching *)

(** A term without the wildcards of [LIKE]. *)
Fixpoint no_wildcard (term : string) : bool :=
  match term with
  | EmptyString => true
  | String c r => negb (Ascii.eqb c "%") && negb (Ascii.eqb c "_") && no_wildcard r
  end.

(** A pattern of percent signs only. *)
Fixpoint all_percent (pattern : string) : bool :=
  match pattern with
  | EmptyString => true
  | String c r => Ascii.eqb c "%" && all_percent r
  end.

(** ** Previewing and saving *)



(** ** The conversation graph *)

(** Where a plain message can take a conversation: the states a handler
    of the [states] table returns, [None] for [END]. *)
Definition successors (s : State) : list (option State) :=
  match s with
  | PATIENT_NAME => [Some PATIENT_AGE]
  | PATIENT_AGE => [Some PATIENT_AGE; Some PATIENT_PHONE]
  | PATIENT_PHONE => [Some PATIENT_PHONE; None]
  | PATIENT_DIAGNOSIS => [Some PATIENT_DIAGNOSIS; Some PRESCRIPTION_INPUT; None]
  | PRESCRIPTION_INPUT => [Some CONFIRM_PRESCRIPTION]
  | CONFIRM_PRESCRIPTION => [Some CONFIRM_PRESCRIPTION; None]
  end.

(** A line of four segments, as the prompt of [prescription_input]
    shows it. *)
Definition medication_line (a b c d : string) : string :=
  a +:+ "|" +:+ b +:+ "|" +:+ c +:+ "|" +:+ d.

(* ===================================================================== *)
(** * The medication parser *)
(* ===================================================================== *)

Section Split.
Variable sep : string.

Lemma split_go_no_separator (s cur : string) :
  PyStr.contains sep s = false ->
  PyStr.split_go sep O cur s = [String.rev_app cur s].
Proof.
  revert cur. induction s as [|c s IH]; intros cur H.
  - reflexivity.
  - cbn [PyStr.contains] in H. apply orb_false_iff in H as [Hhere Hlater].
    cbn [PyStr.split_go]. rewrite Hhere. rewrite (IH _ Hlater). reflexivity.
Qed.

(** A text without the separator is the one piece of its split. *)
Lemma split_no_separator (s : string) :
  PyStr.contains sep s = false -> PyStr.split sep s = [s].
Proof. intros H. unfold PyStr.split. by rewrite split_go_no_separator. Qed.
End Split.

Lemma parse_line_entry (medications : list Medication) (line : string) :
  parse_line medications line = (medications ++ option_list (line_entry line))%list.
Proof.
  unfold parse_line, line_entry.
  destruct (PyStr.contains "|" line) eqn:Hpipe.
  - destruct (PyStr.split "|" line) as [|a [|b [|c [|d [|e l]]]]]; cbn;
      by rewrite ?app_nil_r.
  - rewrite (split_no_separator _ _ Hpipe). cbn. by rewrite app_nil_r.
Qed.

Lemma parse_lines (lines : list string) (medications : list Medication) :
  foldl parse_line medications lines = (medications ++ omap line_entry lines)%list.
Proof.
  revert medications. induction lines as [|line lines IH]; intros medications; cbn.
  - by rewrite app_nil_r.
  - rewrite IH, parse_line_entry. destruct (line_entry line); cbn.
    + by rewrite <- app_assoc.
    + by rewrite app_nil_r.
Qed.

(** C5, as stated, fails: the keyword with a space before it passes the
    trimmed comparison and is not answered with the template; the parser
    finds no medication in it at all. *)
Lemma template_after_trim_fails : ~ template_after_trim.
Proof.
  intros H. specialize (H " h.pylori" eq_refl). vm_compute in H. discriminate H.
Qed.

(** C5, amended: a text whose lower-case form is exactly [h.pylori] (any
    casing of its letters, nothing around it) is answered with the fixed
    list of four entries, and its lines are not parsed. *)
Theorem template_on_keyword (message_text : string) :
  PyStr.lower message_text = "h.pylori" ->
  parse_medications message_text = h_pylori_medications.
Proof.
  intros H. unfold parse_medications. rewrite H. by rewrite decide_True.
Qed.

Lemma template_on_keyword_witness :
  PyStr.lower "H.Pylori" = "h.pylori" /\
  parse_medications "H.Pylori" =
    [ mk_med "Doxycycline 100mg" "100mg" "28 tablets"
        "Take 1 tablet twice daily (morning and evening) after meals for 14 days";
      mk_med "Metronidazole 500mg" "500mg" "42 tablets"
        "Take 1 tablet three times daily (morning, lunch, evening) after meals for 14 days";
      mk_med "Esomeprazole 40mg" "40mg" "28 tablets"
        "Take 1 tablet twice daily (morning and evening) before meals for 14 days";
      mk_med "Bismuth 525mg" "525mg" "56 tablets"
        "Take 1 tablet four times daily (morning, lunch, evening, bedtime) with meals for 14 days" ].
Proof.
  split; [reflexivity | apply (template_on_keyword "H.Pylori"); reflexivity].
Defined.

(** C6: a text that is not the template keyword is cut into lines, and
    the result holds, in the order of the lines, one entry for each line
    of exactly four pipe-separated segments (name, dosage, quantity,
    instructions, each trimmed) and nothing for any other line. *)
Theorem custom_prescription_lines (message_text : string) :
  PyStr.lower message_text <> "h.pylori" ->
  parse_medications message_text =
    omap line_entry (PyStr.split nl (PyStr.strip message_text)).
Proof.
  intros H. unfold parse_medications. rewrite decide_False by exact H.
  apply parse_lines.
Qed.

Lemma custom_prescription_lines_witness :
  PyStr.lower sample_block <> "h.pylori" /\
  parse_medications sample_block =
    [ mk_med "Aspirin 100mg" "100mg" "10 tablets" "once daily";
      mk_med "Zinc" "20mg" "5 tablets" "at night" ].
Proof.
  assert (Hkw : PyStr.lower sample_block <> "h.pylori") by (vm_compute; discriminate).
  split; [exact Hkw |].
  exact (eq_trans (custom_prescription_lines sample_block Hkw) eq_refl).
Defined.

(** The lines are independent: what a block of lines gives does not
    depend on the lines before or after it. *)
Lemma lines_independent (before after : list string) :
  omap line_entry (before ++ after)%list = (omap line_entry before ++ omap line_entry after)%list.
Proof. apply omap_app. Qed.

(** A line gives an entry exactly when it has four segments. *)
Lemma line_entry_four_segments (line : string) :
  is_Some (line_entry line) <-> length (PyStr.split "|" line) = 4%nat.
Proof.
  unfold line_entry.
  destruct (PyStr.split "|" line) as [|a [|b [|c [|d [|e l]]]]]; cbn;
    split; intros H; try done; try (by destruct H); eauto.
Qed.

(** The result has one entry for each line of four segments. *)
Lemma entries_count (lines : list string) :
  length (omap line_entry lines) =
    length (filter (fun line => length (PyStr.split "|" line) = 4%nat) lines).
Proof.
  induction lines as [|line lines IH]; [reflexivity|].
  cbn [omap list_omap]. pose proof (line_entry_four_segments line) as Hfour.
  destruct (line_entry line) as [med|].
  - rewrite filter_cons_True; [cbn; by rewrite IH|]. apply Hfour. by eexists.
  - rewrite filter_cons_False; [done|].
    intros Hlen. apply Hfour in Hlen. by destruct Hlen.
Qed.

Lemma startswith_pipe (c : ascii) (s s' : string) :
  PyStr.startswith "|" (String c s) = PyStr.startswith "|" (String c s').
Proof.
  unfold PyStr.startswith. cbn [PyStr.prefix_rest]. by destruct (Ascii.eqb "|" c).
Qed.

(** Splitting at the first pipe of a text whose head has none. *)
Lemma split_go_pipe (a rest cur : string) :
  PyStr.contains "|" a = false ->
  PyStr.split_go "|" O cur (a +:+ "|" +:+ rest) =
    String.rev_app cur a :: PyStr.split_go "|" O EmptyString rest.
Proof.
  revert cur. induction a as [|c a IH]; intros cur H.
  - reflexivity.
  - cbn [PyStr.contains] in H. apply orb_false_iff in H as [Hhere Hlater].
    change (String c a +:+ "|" +:+ rest) with (String c (a +:+ "|" +:+ rest)).
    cbn [PyStr.split_go].
    rewrite (startswith_pipe c _ a), Hhere. by rewrite IH.
Qed.

(** A line written as four pipe-free segments joined by pipes gives the
    entry of its segments, trimmed, in their order. *)
Lemma four_segment_line (a b c d : string) :
  PyStr.contains "|" a = false -> PyStr.contains "|" b = false ->
  PyStr.contains "|" c = false -> PyStr.contains "|" d = false ->
  line_entry (a +:+ "|" +:+ b +:+ "|" +:+ c +:+ "|" +:+ d) =
    Some (mk_med (PyStr.strip a) (PyStr.strip b) (PyStr.strip c) (PyStr.strip d)).
Proof.
  intros Ha Hb Hc Hd. unfold line_entry, PyStr.split.
  rewrite (split_go_pipe a _ _ Ha), (split_go_pipe b _ _ Hb), (split_go_pipe c _ _ Hc).
  by rewrite (split_go_no_separator "|" d _ Hd).
Qed.

(** The handler that parses: when the parser finds no medication,
    [confirm_prescription] sends the format reminder and returns its own
    state; [user_data] (the diagnosis with it) and the database are as
    before, and no medication list is stored. *)
Lemma no_medication_reprompts (u : Update) (w : World) :
  parse_medications (text u) = [] ->
  confirm_prescription u w =
    (mk_world (user_data w) (database w)
       (outbox w ++ [Message INVALID_FORMAT NoMarkup false]),
     Ok (To CONFIRM_PRESCRIPTION)).
Proof.
  intros H. unfold confirm_prescription. rewrite H. reflexivity.
Qed.

Example no_medication_reprompts_sample :
  confirm_prescription sample_chatter sample_world =
    (mk_world {["diagnosis" := VStr "flu"]} empty_db
       [Message INVALID_FORMAT NoMarkup false],
     Ok (To CONFIRM_PRESCRIPTION)).
Proof. reflexivity. Qed.

(* ===================================================================== *)
(** * Selecting a patient *)
(* ===================================================================== *)

Lemma unmarked_choice (choice : string) :
  PyStr.contains ID_MARKER choice = false -> selected_id choice = None.
Proof.
  intros H. unfold selected_id. by rewrite (split_no_separator _ _ H).
Qed.

Lemma app_String (c : ascii) (a b : string) :
  String c a +:+ b = String c (a +:+ b).
Proof. reflexivity. Qed.

(** No occurrence of the marker begins before the end of a marker-free
    head: the letter [I] is only its first character. *)
Lemma startswith_marker_head (c : ascii) (head rest : string) :
  PyStr.startswith ID_MARKER (String c head) = false ->
  PyStr.startswith ID_MARKER (String c (head +:+ ID_MARKER +:+ rest)) = false.
Proof.
  unfold PyStr.startswith, ID_MARKER.
  destruct head as [|c1 [|c2 [|c3 head]]];
    rewrite ?app_String; cbn [PyStr.prefix_rest];
    change ("" +:+ "ID: " +:+ rest) with (String "I" (String "D" (String ":" (String " " rest))));
    cbn [PyStr.prefix_rest];
    repeat match goal with
           | |- context [Ascii.eqb ?x ?y] =>
               lazymatch y with
               | Ascii _ _ _ _ _ _ _ _ => fail
               | _ => destruct (Ascii.eqb x y)
               end
           end; try done.
Qed.

Lemma split_go_marker (head rest cur : string) :
  PyStr.contains ID_MARKER head = false ->
  PyStr.split_go ID_MARKER O cur (head +:+ ID_MARKER +:+ rest) =
    String.rev_app cur head :: PyStr.split_go ID_MARKER O EmptyString rest.
Proof.
  revert cur. induction head as [|c head IH]; intros cur H.
  - reflexivity.
  - cbn [PyStr.contains] in H. apply orb_false_iff in H as [Hhere Hlater].
    rewrite app_String. cbn [PyStr.split_go].
    rewrite (startswith_marker_head c head rest Hhere). by rewrite IH.
Qed.

(** In a text with one marker, the piece that is read as the identifier
    is all that follows the marker. *)
Lemma single_marker (head rest : string) :
  PyStr.contains ID_MARKER head = false ->
  PyStr.contains ID_MARKER rest = false ->
  selected_id (head +:+ ID_MARKER +:+ rest) = PyStr.py_int rest.
Proof.
  intros Hhead Hrest. unfold selected_id, PyStr.split.
  rewrite (split_go_marker head rest _ Hhead).
  by rewrite (split_go_no_separator ID_MARKER rest _ Hrest).
Qed.

(** ** Integers printed and read back *)

Lemma digit_pretty_N_char (d : N) :
  (d < 10)%N -> PyStr.digit (pretty_N_char d) = Some (Z.of_N d).
Proof.
  intros Hd.
  assert (d = 0 \/ d = 1 \/ d = 2 \/ d = 3 \/ d = 4 \/ d = 5 \/ d = 6 \/ d = 7
          \/ d = 8 \/ d = 9)%N as Hcases by lia.
  repeat (destruct Hcases as [->|Hcases]; [reflexivity|]). by subst.
Qed.

Lemma numeral_pretty_N_char (d : N) : numeral_char (pretty_N_char d) = true.
Proof. unfold pretty_N_char. by repeat case_match. Qed.

Lemma all_numeral_pretty_N_go (x : N) (s : string) :
  all_numeral s = true -> all_numeral (pretty_N_go x s) = true.
Proof.
  revert s. induction (N.lt_wf_0 x) as [x _ IH]; intros s Hs.
  assert (x = 0 \/ 0 < x)%N as [->|Hpos] by lia.
  - by rewrite pretty_N_go_0.
  - rewrite pretty_N_go_step by done. apply IH; [by apply N.div_lt|].
    cbn [all_numeral]. by rewrite numeral_pretty_N_char, Hs.
Qed.

(** Reading the digits of [x] from the left gives [x]. *)
Lemma digits_go_pretty_N_go (x : N) (s : string) (prev : bool) :
  (0 < x)%N ->
  PyStr.digits_go 0 prev (pretty_N_go x s) = PyStr.digits_go (Z.of_N x) true s.
Proof.
  revert s prev. induction (N.lt_wf_0 x) as [x _ IH]; intros s prev Hpos.
  rewrite pretty_N_go_step by done.
  pose proof (N.div_mod x 10 ltac:(done)) as Hx.
  pose proof (N.mod_lt x 10 ltac:(done)) as Hr.
  assert (x `div` 10 = 0 \/ 0 < x `div` 10)%N as [Hq|Hq] by lia.
  - rewrite Hq, pretty_N_go_0. cbn [PyStr.digits_go].
    rewrite digit_pretty_N_char by done. f_equal. lia.
  - rewrite IH by (done || by apply N.div_lt). cbn [PyStr.digits_go].
    rewrite digit_pretty_N_char by done. f_equal. lia.
Qed.

Lemma append_empty (s : string) : s +:+ "" = s.
Proof. induction s as [|c s IH]; [done|]. by rewrite app_String, IH. Qed.

Lemma append_assoc (a b c : string) : (a +:+ b) +:+ c = a +:+ b +:+ c.
Proof. induction a as [|x a IH]; [done|]. by rewrite !app_String, IH. Qed.

Lemma rev_app_rev_app (s t u : string) :
  String.rev_app (String.rev_app s t) u = String.rev_app t (s +:+ u).
Proof.
  revert t u. induction s as [|c s IH]; intros t u; [done|].
  cbn [String.rev_app]. by rewrite IH.
Qed.

Lemma rev_rev (s : string) : String.rev (String.rev s) = s.
Proof. unfold String.rev. rewrite rev_app_rev_app. cbn. apply append_empty. Qed.

Lemma all_numeral_rev_app (s t : string) :
  all_numeral (String.rev_app s t) = all_numeral s && all_numeral t.
Proof.
  revert t. induction s as [|c s IH]; intros t; [done|].
  cbn [String.rev_app all_numeral]. rewrite IH. cbn [all_numeral].
  by destruct (numeral_char c), (all_numeral s), (all_numeral t).
Qed.

Lemma pretty_N_go_positive (x : N) :
  (0 < x)%N ->
  exists c r, pretty_N_go x "" = String c r /\ is_digit c = true.
Proof.
  intros Hpos.
  assert (Hne : pretty_N_go x "" <> "").
  { intros He. pose proof (digits_go_pretty_N_go x "" false Hpos) as Hd.
    rewrite He in Hd. discriminate Hd. }
  destruct (pretty_N_go x "") as [|c r] eqn:Hp; [done|].
  exists c, r. split; [done|].
  pose proof (digits_go_pretty_N_go x "" false Hpos) as Hd.
  rewrite Hp in Hd. cbn in Hd. unfold is_digit.
  destruct (PyStr.digit c); [done|]. by rewrite andb_false_r in Hd.
Qed.

Lemma all_numeral_str_of_int (n : Z) : all_numeral (PyStr.str_of_int n) = true.
Proof.
  unfold PyStr.str_of_int, pretty, pretty_Z.
  destruct n as [|x|x]; [reflexivity|..];
    unfold pretty, pretty_positive, pretty, pretty_N;
    rewrite decide_False by done.
  - by apply all_numeral_pretty_N_go.
  - change ("-" +:+ pretty_N_go (N.pos x) "") with (String "-" (pretty_N_go (N.pos x) "")).
    cbn [all_numeral]. by rewrite all_numeral_pretty_N_go.
Qed.

(** ** [int] on ASCII texts *)

Lemma code_points_ascii (c : ascii) (s : string) :
  PyStr.byte c < 128 ->
  PyStr.code_points (String c s) = cons (PyStr.byte c) <$> PyStr.code_points s.
Proof.
  intros Hc. cbn [PyStr.code_points]. cbv zeta.
  destruct (Z.ltb_spec (PyStr.byte c) 128); [reflexivity | lia].
Qed.

Lemma to_ascii_ascii (c : ascii) :
  PyStr.byte c < 127 -> PyStr.to_ascii (PyStr.byte c) = Some c.
Proof.
  intros Hc. unfold PyStr.to_ascii.
  destruct (Z.ltb_spec (PyStr.byte c) 127); [|lia].
  unfold PyStr.byte. by rewrite Nat2Z.id, ascii_nat_embedding.
Qed.

Lemma numeral_char_byte (c : ascii) : numeral_char c = true -> PyStr.byte c < 127.
Proof.
  destruct c as [[] [] [] [] [] [] [] []]; intros H; try discriminate H;
    vm_compute; reflexivity.
Qed.

(** A numeral is ASCII already. *)
Lemma decimal_and_space_to_ascii_numeral (s : string) :
  all_numeral s = true -> PyStr.decimal_and_space_to_ascii s = Some s.
Proof.
  unfold PyStr.decimal_and_space_to_ascii.
  induction s as [|c s IH]; intros Hs; [reflexivity|].
  cbn [all_numeral] in Hs. apply andb_true_iff in Hs as [Hc Hs].
  pose proof (numeral_char_byte c Hc) as Hb.
  rewrite code_points_ascii by lia. specialize (IH Hs).
  destruct (PyStr.code_points s) as [cps|]; [|discriminate IH].
  cbn [fmap option_fmap option_map mbind option_bind mapM] in IH |- *.
  rewrite to_ascii_ascii by done. cbn [mbind option_bind].
  destruct (mapM PyStr.to_ascii cps) as [l|]; [|discriminate IH].
  cbn [fmap option_fmap option_map mbind option_bind mret option_ret] in IH |- *.
  cbn [string_of_list_ascii]. by injection IH as ->.
Qed.

Lemma ascii_space_numeral (c : ascii) :
  numeral_char c = true -> PyStr.ascii_space c = false.
Proof.
  destruct c as [[] [] [] [] [] [] [] []]; intros H; try discriminate H; reflexivity.
Qed.

(** There are no blanks to drop around a numeral. *)
Lemma strip_ascii_numeral (s : string) :
  all_numeral s = true -> PyStr.rstrip_ascii (PyStr.lstrip_ascii s) = s.
Proof.
  intros Hs.
  assert (Hl : forall t, all_numeral t = true -> PyStr.lstrip_ascii t = t).
  { intros [|c r] Ht; [done|]. cbn [all_numeral] in Ht.
    apply andb_true_iff in Ht as [Hc _].
    cbn [PyStr.lstrip_ascii]. by rewrite ascii_space_numeral. }
  rewrite (Hl s Hs). unfold PyStr.rstrip_ascii.
  rewrite Hl; [apply rev_rev|].
  unfold String.rev. by rewrite all_numeral_rev_app, Hs.
Qed.

(** ** The number of digits *)

Lemma count_digits_length (s : string) :
  (PyStr.count_digits s <= String.length s)%nat.
Proof.
  induction s as [|c s IH]; cbn [PyStr.count_digits String.length]; [lia|].
  destruct (PyStr.digit c); lia.
Qed.

Lemma length_pretty_N_go (k : nat) (x : N) (s : string) :
  (x < 10 ^ N.of_nat k)%N ->
  (String.length (pretty_N_go x s) <= k + String.length s)%nat.
Proof.
  revert x s. induction k as [|k IH]; intros x s Hx.
  - assert (x = 0%N) as -> by (cbn in Hx; lia). by rewrite pretty_N_go_0.
  - assert (x = 0 \/ 0 < x)%N as [->|Hpos] by lia.
    + rewrite pretty_N_go_0. lia.
    + rewrite pretty_N_go_step by done.
      rewrite Nat2N.inj_succ, N.pow_succ_r' in Hx.
      assert (Hq : (x `div` 10 < 10 ^ N.of_nat k)%N)
        by (apply N.Div0.div_lt_upper_bound; lia).
      specialize (IH _ (String (pretty_N_char (x `mod` 10)) s) Hq).
      cbn [String.length] in IH. lia.
Qed.

(** A numeral of at most [max_str_digits] digits is read in full. *)
Lemma digits_pretty_N_go (k : nat) (x : N) :
  (k <= PyStr.max_str_digits)%nat -> (0 < x < 10 ^ N.of_nat k)%N ->
  PyStr.digits (pretty_N_go x "") = Some (Z.of_N x).
Proof.
  intros Hk [Hpos Hx]. unfold PyStr.digits.
  pose proof (count_digits_length (pretty_N_go x "")) as Hc.
  pose proof (length_pretty_N_go k x "" Hx) as Hl. cbn [String.length] in Hl.
  destruct (Nat.ltb_spec PyStr.max_str_digits (PyStr.count_digits (pretty_N_go x "")));
    [lia|].
  by rewrite digits_go_pretty_N_go.
Qed.

(** [int(str(n)) == n], for an [n] of at most [max_str_digits] digits. *)
Lemma py_int_str_of_int (k : nat) (n : Z) :
  (k <= PyStr.max_str_digits)%nat -> Z.abs n < 10 ^ Z.of_nat k ->
  PyStr.py_int (PyStr.str_of_int n) = Some n.
Proof.
  intros Hk Hn. unfold PyStr.py_int.
  rewrite decimal_and_space_to_ascii_numeral by apply all_numeral_str_of_int.
  cbn [mbind option_bind]. unfold PyStr.long_from_string.
  rewrite strip_ascii_numeral by apply all_numeral_str_of_int.
  unfold PyStr.str_of_int, pretty, pretty_Z.
  destruct n as [|x|x]; [reflexivity|..];
    unfold pretty, pretty_positive, pretty, pretty_N;
    rewrite decide_False by done;
    destruct (pretty_N_go_positive (N.pos x) ltac:(done)) as (c & r & Hp & Hc);
    assert (Hx : (0 < N.pos x < 10 ^ N.of_nat k)%N)
      by (split; [done|]; apply N2Z.inj_lt; rewrite N2Z.inj_pow, nat_N_Z; exact Hn);
    pose proof (digits_pretty_N_go k (N.pos x) Hk Hx) as Hd.
  - rewrite Hp in *.
    destruct c as [[] [] [] [] [] [] [] []]; try discriminate Hc; exact Hd.
  - change ("-" +:+ pretty_N_go (N.pos x) "") with (String "-" (pretty_N_go (N.pos x) "")).
    cbv beta iota. by rewrite Hd.
Qed.

Lemma rowid_bounds (id : rowid) : - 2 ^ 63 <= rowid_Z id < 2 ^ 63.
Proof.
  destruct id as [n H]. cbn [rowid_Z]. apply Is_true_true in H.
  unfold fits_int64 in H. apply andb_true_iff in H as [H1 H2].
  apply Z.leb_le in H1. apply Z.ltb_lt in H2. lia.
Qed.

(** The text of a rowid reads back as the rowid. *)
Lemma py_int_rowid (id : rowid) :
  PyStr.py_int (PyStr.str_of_int (rowid_Z id)) = Some (rowid_Z id).
Proof.
  apply (py_int_str_of_int 19); [unfold PyStr.max_str_digits; lia|].
  pose proof (rowid_bounds id). cbn. lia.
Qed.

Lemma startswith_marker_numeral (c : ascii) (r : string) :
  numeral_char c = true -> PyStr.startswith ID_MARKER (String c r) = false.
Proof.
  destruct c as [[] [] [] [] [] [] [] []]; intros H; try discriminate H; reflexivity.
Qed.

Lemma numeral_no_marker (s : string) :
  all_numeral s = true -> PyStr.contains ID_MARKER s = false.
Proof.
  induction s as [|c s IH]; intros H; [reflexivity|].
  cbn [all_numeral] in H. apply andb_true_iff in H as [Hc Hs].
  cbn [PyStr.contains]. by rewrite startswith_marker_numeral, IH.
Qed.

(** The choice the keyboard offers for a patient selects that patient,
    unless the name makes a marker of its own. *)
Lemma choice_selects_patient (p : PatientRow) :
  PyStr.contains ID_MARKER (choice_head p) = false ->
  selected_id (patient_choice p) = Some (p_id p).
Proof.
  intros Hhead.
  assert (Hchoice : patient_choice p =
            choice_head p +:+ ID_MARKER +:+ PyStr.str_of_int (p_id p)).
  { unfold patient_choice, choice_head. by rewrite !append_assoc. }
  rewrite Hchoice, single_marker; [apply py_int_rowid|done|].
  apply numeral_no_marker, all_numeral_str_of_int.
Qed.

(** A patient whose name ends in [ID:] cannot be chosen from the
    keyboard. *)
Example choice_with_marker_in_name :
  patient_choice (mk_patient (key 9) "ID:" 3 "555" 5 sample_time) = "ID: (Age: 3) - ID: 9" /\
  selected_id (patient_choice (mk_patient (key 9) "ID:" 3 "555" 5 sample_time)) = None.
Proof. split; reflexivity. Qed.

(** C9, as stated, fails on a text with two markers: what remains behind
    the marker, [7 ID: 8], is no integer, yet 7 is stored and the
    diagnosis is asked for; the code reads the piece between the first
    marker and the second. *)
Lemma remainder_selects_fails : ~ remainder_selects.
Proof.
  intros H.
  assert (Hcancel : text two_markers <> CANCEL_SELECTION) by (vm_compute; discriminate).
  specialize (H two_markers (mk_world ∅ empty_db []) "Jane Doe - " "7 ID: 8"
                Hcancel eq_refl eq_refl).
  vm_compute in H. discriminate H.
Qed.

Example two_markers_selects :
  PyStr.py_int "7 ID: 8" = None /\
  patient_diagnosis two_markers (mk_world ∅ empty_db []) =
    (mk_world {["selected_patient_id" := VInt 7]} empty_db [ENTER_DIAGNOSIS],
     Ok (To PRESCRIPTION_INPUT)).
Proof. split; reflexivity. Qed.

(** The cancel choice ends the conversation and leaves [user_data]. *)
Lemma cancel_choice_ends (u : Update) (w : World) :
  text u = CANCEL_SELECTION ->
  patient_diagnosis u w =
    (mk_world (user_data w) (database w) (outbox w ++ [CANCELLED]), Ok END).
Proof.
  intros H. unfold patient_diagnosis. by rewrite decide_True.
Qed.

(** C9, amended: the cancel choice ends the conversation and leaves
    [user_data] as it is.  For any other text, the piece behind the
    marker [ID: ] is read as an integer: when it is one, that integer is
    stored as the selected patient and the diagnosis is asked for; when
    there is no marker, or the piece is not an integer, state and
    [user_data] stay and the operator is asked to select again.  In a
    text with one marker the piece is all that follows the marker. *)
Theorem patient_selection (u : Update) (w : World) :
  patient_diagnosis u w =
    (if decide (text u = CANCEL_SELECTION) then
       (mk_world (user_data w) (database w) (outbox w ++ [CANCELLED]), Ok END)
     else
       match selected_id (text u) with
       | Some patient_id =>
           (mk_world (<["selected_patient_id" := VInt patient_id]> (user_data w))
              (database w) (outbox w ++ [ENTER_DIAGNOSIS]),
            Ok (To PRESCRIPTION_INPUT))
       | None =>
           (mk_world (user_data w) (database w) (outbox w ++ [SELECT_AGAIN]),
            Ok (To PATIENT_DIAGNOSIS))
       end)
  /\ (PyStr.contains ID_MARKER (text u) = false -> selected_id (text u) = None)
  /\ (forall head rest,
        text u = head +:+ ID_MARKER +:+ rest ->
        PyStr.contains ID_MARKER head = false ->
        PyStr.contains ID_MARKER rest = false ->
        selected_id (text u) = PyStr.py_int rest).
Proof.
  split_and!.
  - unfold patient_diagnosis, selected_id. case_decide; [reflexivity|].
    destruct (PyStr.split ID_MARKER (text u) !! 1%nat) as [piece|]; [|reflexivity].
    cbn [mbind option_bind]. destruct (PyStr.py_int piece); reflexivity.
  - apply unmarked_choice.
  - intros head rest -> Hhead Hrest. by apply single_marker.
Qed.

Lemma patient_selection_witness :
  patient_diagnosis sample_choice (mk_world ∅ empty_db []) =
    (mk_world {["selected_patient_id" := VInt 7]} empty_db [ENTER_DIAGNOSIS],
     Ok (To PRESCRIPTION_INPUT))
  /\ patient_diagnosis (message 5 "Jane Doe") (mk_world ∅ empty_db []) =
    (mk_world ∅ empty_db [SELECT_AGAIN], Ok (To PATIENT_DIAGNOSIS)).
Proof.
  split.
  - exact (proj1 (patient_selection sample_choice (mk_world ∅ empty_db []))).
  - exact (proj1 (patient_selection (message 5 "Jane Doe") (mk_world ∅ empty_db []))).
Defined.

Example selection_without_marker :
  selected_id "Jane Doe" = None.
Proof. reflexivity. Qed.

Example selection_not_a_number :
  selected_id "Jane Doe - ID: seven" = None.
Proof. reflexivity. Qed.

(** The digits of every script are read, as [int] reads them. *)
Example selection_other_digits :
  selected_id "Jane Doe (Age: 40) - ID: ៧" = Some 7 /\
  selected_id "Jane Doe (Age: 40) - ID: ٤٢" = Some 42.
Proof. split; reflexivity. Qed.

(** Only the piece up to a second marker counts. *)
Example selection_two_markers :
  selected_id "ID: 7ID: 8" = Some 7 /\ selected_id "ID: x (Age: 3) - ID: 8" = None.
Proof. split; reflexivity. Qed.

(* ===================================================================== *)
(** * Invariants of handlers *)
(* ===================================================================== *)

Section Keeps.
Variable I : World -> Prop.

Lemma keeps_ret {A} (a : A) : keeps I (mret a).
Proof. intros w H. exact H. Qed.

Lemma keeps_raise {A} (e : exn) : keeps I (@raise A e).
Proof. intros w H. exact H. Qed.

Lemma keeps_bind {A B} (m : M A) (f : A -> M B) :
  keeps I m -> (forall a, keeps I (f a)) -> keeps I (m ≫= f).
Proof.
  intros Hm Hf w H. unfold mbind, M_bind.
  specialize (Hm w H). destruct (m w) as [w' [a|e]]; cbn in *.
  - by apply Hf.
  - exact Hm.
Qed.

Lemma keeps_get_item (k : string) : keeps I (get_item k).
Proof. intros w H. unfold get_item. by destruct (user_data w !! k). Qed.

Lemma keeps_get_db : keeps I get_db.
Proof. intros w H. exact H. Qed.

Lemma keeps_bind_int (n : Z) : keeps I (bind_int n).
Proof. intros w H. unfold bind_int. by destruct (fits_int64 n). Qed.

Lemma keeps_get_str (k : string) : keeps I (get_str k).
Proof.
  apply keeps_bind; [apply keeps_get_item|].
  intros [s|n|l]; (apply keeps_ret || apply keeps_raise).
Qed.

Lemma keeps_get_int (k : string) : keeps I (get_int k).
Proof.
  apply keeps_bind; [apply keeps_get_item|].
  intros [s|n|l]; (apply keeps_ret || apply keeps_raise).
Qed.

Lemma keeps_get_meds (k : string) : keeps I (get_meds k).
Proof.
  apply keeps_bind; [apply keeps_get_item|].
  intros [s|n|l]; (apply keeps_ret || apply keeps_raise).
Qed.

(** The invariants of interest do not look at the outbox, ... *)
Hypothesis I_outbox :
  forall ud d o o', I (mk_world ud d o) -> I (mk_world ud d o').

Lemma keeps_reply_text (body : string) (mk : Markup) (md : bool) :
  keeps I (reply_text body mk md).
Proof. intros [ud d o] H. cbn. by eapply I_outbox. Qed.

Lemma keeps_send (r : Reply) : keeps I (send r).
Proof. intros [ud d o] H. cbn. by eapply I_outbox. Qed.

(** ... not at the patients table, ... *)
Hypothesis I_patients :
  forall ud ps ps' rxs o, I (mk_world ud (mk_db ps rxs) o) -> I (mk_world ud (mk_db ps' rxs) o).

Lemma keeps_insert_patient nm age phone uid ts :
  keeps I (insert_patient nm age phone uid ts).
Proof.
  intros [ud [ps rxs] o] H. unfold insert_patient, get_db, put_db, raise, mbind, M_bind.
  cbn [database patients prescriptions]. destruct (next_rowid _); cbn; [|done].
  by eapply I_patients.
Qed.

(** ... and allow any key but [medications] to be written. *)
Hypothesis I_set_item :
  forall k v ud d o, k <> "medications" ->
    I (mk_world ud d o) -> I (mk_world (<[k := v]> ud) d o).

Lemma keeps_set_item (k : string) (v : value) :
  k <> "medications" -> keeps I (set_item k v).
Proof. intros Hk [ud d o] H. cbn. by apply I_set_item. Qed.
End Keeps.

(** Taking a handler's definition apart along its binds and branches. *)
Ltac keeps_step :=
  first
    [ apply keeps_ret | apply keeps_raise
    | apply keeps_get_str | apply keeps_get_int | apply keeps_get_meds
    | apply keeps_get_item | apply keeps_get_db | apply keeps_bind_int
    | apply keeps_reply_text; [assumption]
    | apply keeps_send; [assumption]
    | apply keeps_insert_patient; [assumption]
    | apply keeps_set_item; [assumption | discriminate]
    | apply keeps_bind; [|intros ?]
    | case_decide | case_match ].

Section KeepsHandlers.
Variable I : World -> Prop.
Hypothesis I_outbox :
  forall ud d o o', I (mk_world ud d o) -> I (mk_world ud d o').
Hypothesis I_patients :
  forall ud ps ps' rxs o, I (mk_world ud (mk_db ps rxs) o) -> I (mk_world ud (mk_db ps' rxs) o).
Hypothesis I_set_item :
  forall k v ud d o, k <> "medications" ->
    I (mk_world ud d o) -> I (mk_world (<[k := v]> ud) d o).

Lemma keeps_start u : keeps I (start u).
Proof. unfold start. repeat keeps_step. Qed.

Lemma keeps_cancel u : keeps I (cancel u).
Proof. unfold cancel. repeat keeps_step. Qed.

Lemma keeps_add_patient_start u : keeps I (add_patient_start u).
Proof. unfold add_patient_start. repeat keeps_step. Qed.

Lemma keeps_patient_name u : keeps I (patient_name u).
Proof. unfold patient_name. repeat keeps_step. Qed.

Lemma keeps_patient_age u : keeps I (patient_age u).
Proof. unfold patient_age. repeat keeps_step. Qed.

Lemma keeps_patient_phone u : keeps I (patient_phone u).
Proof. unfold patient_phone. repeat keeps_step. Qed.

Lemma keeps_create_prescription_start u : keeps I (create_prescription_start u).
Proof. unfold create_prescription_start. repeat keeps_step. Qed.

Lemma keeps_patient_diagnosis u : keeps I (patient_diagnosis u).
Proof. unfold patient_diagnosis. pose proof (keeps_cancel u). repeat keeps_step; assumption. Qed.

Lemma keeps_prescription_input u : keeps I (prescription_input u).
Proof. unfold prescription_input. repeat keeps_step. Qed.

Lemma keeps_view_patients u : keeps I (view_patients u).
Proof. unfold view_patients. repeat keeps_step. Qed.

Lemma keeps_view_prescriptions u : keeps I (view_prescriptions u).
Proof. unfold view_prescriptions. repeat keeps_step. Qed.

Lemma keeps_search_patient u : keeps I (search_patient u).
Proof. unfold search_patient. repeat keeps_step. Qed.

Lemma keeps_handle_search u : keeps I (handle_search u).
Proof. unfold handle_search. repeat keeps_step. Qed.

Lemma keeps_statistics u : keeps I (statistics u).
Proof. unfold statistics. repeat keeps_step. Qed.

Lemma keeps_button_handler u : keeps I (button_handler u).
Proof.
  unfold button_handler.
  pose proof (keeps_add_patient_start u). pose proof (keeps_view_patients u).
  pose proof (keeps_create_prescription_start u).
  pose proof (keeps_view_prescriptions u). pose proof (keeps_search_patient u).
  pose proof (keeps_statistics u). pose proof (keeps_start u).
  repeat first [assumption | keeps_step].
Qed.

(** Every handler but the two that write [medications] or the
    prescriptions table. *)
Lemma keeps_call h u :
  h <> h_confirm_prescription -> h <> h_save_prescription -> keeps I (call h u).
Proof.
  intros H1 H2. destruct h; try done; cbn [call];
    auto using keeps_start, keeps_cancel, keeps_add_patient_start,
      keeps_patient_name, keeps_patient_age, keeps_patient_phone,
      keeps_create_prescription_start, keeps_patient_diagnosis,
      keeps_prescription_input, keeps_view_patients, keeps_view_prescriptions,
      keeps_search_patient, keeps_handle_search, keeps_statistics,
      keeps_button_handler.
Qed.
End KeepsHandlers.

(** [save_prescription] writes no key of [user_data]. *)
Lemma save_prescription_user_data (u : Update) (w : World) :
  user_data (fst (save_prescription u w)) = user_data w.
Proof.
  destruct w as [ud d o].
  unfold save_prescription, cancel, get_meds, get_int, get_str, get_item, bind_int,
    insert_prescription, get_db, put_db, reply_text, raise, mbind, M_bind, mret, M_ret.
  cbn [user_data database outbox fst snd].
  repeat (case_match; simplify_eq/=); reflexivity.
Qed.

(** What [save_prescription] does to the prescriptions table: nothing,
    or one new row that holds the list stored under [medications]. *)
Lemma save_prescription_persists (u : Update) (w : World) :
  prescriptions (database (fst (save_prescription u w))) = prescriptions (database w)
  \/ exists l row,
       user_data w !! "medications" = Some (VMeds l) /\
       rx_medications row = l /\
       prescriptions (database (fst (save_prescription u w))) =
         (prescriptions (database w) ++ [row])%list.
Proof.
  destruct w as [ud d o].
  unfold save_prescription, cancel, get_meds, get_int, get_str, get_item, bind_int,
    insert_prescription, get_db, put_db, reply_text, raise, mbind, M_bind, mret, M_ret.
  cbn [user_data database outbox fst snd].
  repeat (case_match; simplify_eq/=); try (left; reflexivity).
  right. eexists _, _. split; [reflexivity|]. split; [|reflexivity]. reflexivity.
Qed.

(** [confirm_prescription] keeps what allows a non-empty list to be
    written under [medications]. *)
Lemma keeps_confirm_prescription (I : World -> Prop) (u : Update) :
  (forall ud d o o', I (mk_world ud d o) -> I (mk_world ud d o')) ->
  (forall m l ud d o,
      I (mk_world ud d o) -> I (mk_world (<["medications" := VMeds (m :: l)]> ud) d o)) ->
  keeps I (confirm_prescription u).
Proof.
  intros I_outbox I_meds. unfold confirm_prescription.
  destruct (parse_medications (text u)) as [|m l].
  - repeat keeps_step.
  - apply keeps_bind; [intros [ud d o] H; cbn; by apply I_meds | intros _].
    repeat keeps_step.
Qed.

(** ** No empty list is ever stored under [medications] *)

Lemma call_medications_nonempty (h : Handler) (u : Update) (w : World) :
  medications_nonempty (user_data w) ->
  medications_nonempty (user_data (fst (call h u w))).
Proof.
  set (I := fun w : World => medications_nonempty (user_data w)).
  assert (I_outbox : forall ud d o o', I (mk_world ud d o) -> I (mk_world ud d o'))
    by done.
  assert (I_patients : forall ud ps ps' rxs o,
             I (mk_world ud (mk_db ps rxs) o) -> I (mk_world ud (mk_db ps' rxs) o))
    by done.
  assert (I_set_item : forall k v ud d o, k <> "medications" ->
             I (mk_world ud d o) -> I (mk_world (<[k := v]> ud) d o)).
  { intros k v ud d o Hk H l. cbn. rewrite lookup_insert_ne by done. apply H. }
  destruct (decide (h = h_confirm_prescription)) as [->|Hc].
  { apply (keeps_confirm_prescription I u I_outbox).
    intros m l ud d o _ l'. cbn. rewrite lookup_insert_eq. by intros [= <-]. }
  destruct (decide (h = h_save_prescription)) as [->|Hs].
  { intros H. cbn [call]. by rewrite save_prescription_user_data. }
  by apply (keeps_call I I_outbox I_patients I_set_item).
Qed.

(** ** Only [save_prescription] writes the prescriptions table *)

Lemma call_prescriptions (h : Handler) (u : Update) (w : World) :
  h <> h_save_prescription ->
  prescriptions (database (fst (call h u w))) = prescriptions (database w).
Proof.
  intros Hs.
  set (I := fun w' : World => prescriptions (database w') = prescriptions (database w)).
  assert (I_outbox : forall ud d o o', I (mk_world ud d o) -> I (mk_world ud d o'))
    by done.
  assert (I_patients : forall ud ps ps' rxs o,
             I (mk_world ud (mk_db ps rxs) o) -> I (mk_world ud (mk_db ps' rxs) o))
    by done.
  assert (I_set_item : forall k v ud d o, k <> "medications" ->
             I (mk_world ud d o) -> I (mk_world (<[k := v]> ud) d o))
    by done.
  destruct (decide (h = h_confirm_prescription)) as [->|Hc].
  { by apply (keeps_confirm_prescription I u I_outbox). }
  by apply (keeps_call I I_outbox I_patients I_set_item).
Qed.

(** ** The registered handlers never write [medications] *)

Lemma call_no_medications (h : Handler) (u : Update) (w : World) :
  h <> h_confirm_prescription ->
  user_data w !! "medications" = None ->
  user_data (fst (call h u w)) !! "medications" = None.
Proof.
  intros Hc.
  set (I := fun w : World => user_data w !! "medications" = None).
  assert (I_outbox : forall ud d o o', I (mk_world ud d o) -> I (mk_world ud d o'))
    by done.
  assert (I_patients : forall ud ps ps' rxs o,
             I (mk_world ud (mk_db ps rxs) o) -> I (mk_world ud (mk_db ps' rxs) o))
    by done.
  assert (I_set_item : forall k v ud d o, k <> "medications" ->
             I (mk_world ud d o) -> I (mk_world (<[k := v]> ud) d o)).
  { intros k v ud d o Hk H. unfold I in *. cbn in *. by rewrite lookup_insert_ne. }
  destruct (decide (h = h_save_prescription)) as [->|Hs].
  { intros H. cbn [call]. by rewrite save_prescription_user_data. }
  by apply (keeps_call I I_outbox I_patients I_set_item).
Qed.

(* ===================================================================== *)
(** * Invariants of the bot *)
(* ===================================================================== *)

Lemma session_of_handle (r : Route) (u : Update) (b : Bot) (uid : Z) :
  session_of (fst (handle r u b)) uid =
    if decide (uid = effective_user u)
    then user_data (fst (call (handler_of r) u (world_of b u)))
    else session_of b uid.
Proof.
  unfold handle, world_of.
  destruct (call (handler_of r) u _) as [w res]. cbn.
  unfold session_of. cbn. case_decide as Huid.
  - subst uid. by rewrite lookup_insert_eq.
  - by rewrite lookup_insert_ne.
Qed.

Lemma storage_handle (r : Route) (u : Update) (b : Bot) :
  storage (fst (handle r u b)) = database (fst (call (handler_of r) u (world_of b u))).
Proof.
  unfold handle, world_of. by destruct (call (handler_of r) u _) as [w res].
Qed.

Lemma session_of_started (d : DB) (uid : Z) : session_of (started d) uid = ∅.
Proof. reflexivity. Qed.

Lemma handle_medications_nonempty (r : Route) (u : Update) (b : Bot) :
  all_sessions medications_nonempty b ->
  all_sessions medications_nonempty (fst (handle r u b)).
Proof.
  intros H uid. rewrite session_of_handle. case_decide; [|apply H].
  apply call_medications_nonempty. apply H.
Qed.

Lemma invoke_medications_nonempty (steps : list (Route * Update)) (b : Bot) :
  all_sessions medications_nonempty b ->
  all_sessions medications_nonempty (invoke steps b).
Proof.
  revert b. induction steps as [|[r u] steps IH]; intros b H; cbn; [done|].
  apply IH. by apply handle_medications_nonempty.
Qed.

Lemma started_medications_nonempty (d : DB) :
  all_sessions medications_nonempty (started d).
Proof. intros uid l. by rewrite session_of_started, lookup_empty. Qed.

(** What one handler call does to the prescriptions table. *)
Lemma handle_persists (r : Route) (u : Update) (b : Bot) :
  prescriptions (storage (fst (handle r u b))) = prescriptions (storage b)
  \/ exists l row,
       session_of b (effective_user u) !! "medications" = Some (VMeds l) /\
       rx_medications row = l /\
       prescriptions (storage (fst (handle r u b))) =
         (prescriptions (storage b) ++ [row])%list.
Proof.
  rewrite storage_handle.
  destruct (decide (handler_of r = h_save_prescription)) as [->|Hs].
  - apply (save_prescription_persists u (world_of b u)).
  - left. by rewrite call_prescriptions.
Qed.

(** C2: after any handlers of the bot ran in any order on a freshly
    started process, one more handler call leaves the prescriptions
    table as it is or adds one row, and it adds a row only when the
    sender's [user_data] holds a non-empty list under [medications],
    which is the list of the row. *)
Theorem persisted_medications_nonempty
    (d : DB) (steps : list (Route * Update)) (r : Route) (u : Update) :
  prescriptions (storage (fst (handle r u (invoke steps (started d))))) =
    prescriptions (storage (invoke steps (started d)))
  \/ exists l row,
       session_of (invoke steps (started d)) (effective_user u) !! "medications"
         = Some (VMeds l) /\
       l <> [] /\
       rx_medications row = l /\
       prescriptions (storage (fst (handle r u (invoke steps (started d))))) =
         (prescriptions (storage (invoke steps (started d))) ++ [row])%list.
Proof.
  destruct (handle_persists r u (invoke steps (started d)))
    as [Hsame|(l & row & Hl & Hrow & Hadd)]; [by left|right].
  exists l, row. split_and!; try done.
  eapply invoke_medications_nonempty; [apply started_medications_nonempty|done].
Qed.

(** Every row the bot added has a medication. *)
Lemma added_rows_nonempty (d : DB) (steps : list (Route * Update)) :
  exists added,
    prescriptions (storage (invoke steps (started d))) = (prescriptions d ++ added)%list /\
    Forall (fun row => rx_medications row <> []) added.
Proof.
  assert (G : forall b, all_sessions medications_nonempty b ->
            exists added,
              prescriptions (storage (invoke steps b)) = (prescriptions (storage b) ++ added)%list /\
              Forall (fun row => rx_medications row <> []) added).
  { induction steps as [|[r u] steps IH]; intros b Hb; cbn.
    - exists []. by rewrite app_nil_r.
    - destruct (IH _ (handle_medications_nonempty r u b Hb)) as (added & Heq & Hall).
      destruct (handle_persists r u b) as [Hsame|(l & row & Hl & Hrow & Hadd)].
      + exists added. by rewrite Heq, Hsame.
      + exists (row :: added). split.
        * by rewrite Heq, Hadd, <- app_assoc.
        * constructor; [|done]. rewrite Hrow. by apply (Hb (effective_user u) l). }
  apply (G (started d)), started_medications_nonempty.
Qed.


Example authoring_persists :
  prescriptions (storage (invoke authoring (started empty_db))) =
    [ mk_prescription (key 1) 1 "Acute gastritis" "2026-11-03" "2026-11-03"
        h_pylori_medications sample_time ].
Proof. vm_compute. reflexivity. Qed.

(* ===================================================================== *)
(** * What the registration in [run] reaches *)
(* ===================================================================== *)

(** Two handlers are bound to no state, entry point or filter. *)
Lemma route_registered (st : option State) (u : Update) (r : Route) :
  route st u = Some r ->
  handler_of r <> h_confirm_prescription /\ handler_of r <> h_handle_search.
Proof.
  unfold route, entry_points. intros H.
  repeat (case_match; simplify_eq/=); try done;
    match goal with s : State |- _ => by destruct s end.
Qed.

Lemma process_update_no_medications (u : Update) (b : Bot) :
  all_sessions (fun ud => ud !! "medications" = None) b ->
  all_sessions (fun ud => ud !! "medications" = None) (fst (process_update u b)).
Proof.
  intros H. unfold process_update.
  destruct (route (conversations b !! effective_user u) u) as [r|] eqn:Hr; [|done].
  intros uid. rewrite session_of_handle. case_decide; [|apply H].
  apply call_no_medications; [by apply (route_registered _ _ _ Hr) | apply H].
Qed.

Lemma process_update_prescriptions (u : Update) (b : Bot) :
  all_sessions (fun ud => ud !! "medications" = None) b ->
  prescriptions (storage (fst (process_update u b))) = prescriptions (storage b).
Proof.
  intros H. unfold process_update.
  destruct (route (conversations b !! effective_user u) u) as [r|]; [|done].
  destruct (handle_persists r u b) as [Hsame|(l & row & Hl & _)]; [done|].
  by rewrite (H (effective_user u)) in Hl.
Qed.

Lemma run_no_medications (us : list Update) (b : Bot) :
  all_sessions (fun ud => ud !! "medications" = None) b ->
  all_sessions (fun ud => ud !! "medications" = None) (fst (run us b))
  /\ prescriptions (storage (fst (run us b))) = prescriptions (storage b).
Proof.
  revert b. induction us as [|u us IH]; intros b H; cbn; [done|].
  pose proof (process_update_no_medications u b H) as H1.
  pose proof (process_update_prescriptions u b H) as H2.
  destruct (process_update u b) as [b1 o]. cbn in *.
  destruct (IH b1 H1) as [IH1 IH2]. destruct (run us b1) as [b2 os]. cbn in *.
  split; [done | congruence].
Qed.

(** With the handlers as registered, no run of the bot stores a
    medication list, and none adds a prescription. *)
Lemma registered_never_persists (us : list Update) (d : DB) :
  all_sessions (fun ud => ud !! "medications" = None) (fst (run us (started d)))
  /\ prescriptions (storage (fst (run us (started d)))) = prescriptions d.
Proof. by apply run_no_medications. Qed.

(** A plain text in state [CONFIRM_PRESCRIPTION] that is neither
    [Confirm & Save] nor [Edit]: the conversation ends with the
    cancellation message, nothing is parsed or stored. *)
Lemma review_other_text (u : Update) (b : Bot) :
  conversations b !! effective_user u = Some CONFIRM_PRESCRIPTION ->
  command u = None ->
  text u <> CONFIRM_AND_SAVE -> text u <> EDIT ->
  process_update u b =
    (mk_bot (delete (effective_user u) (conversations b))
       (<[effective_user u := session_of b (effective_user u)]> (sessions b))
       (storage b),
     mk_outcome [CANCELLED] None).
Proof.
  intros Hst Hcmd Hc He. unfold process_update, route. rewrite Hst, Hcmd.
  unfold handle. cbn [states handler_of call]. unfold save_prescription.
  by rewrite !decide_False.
Qed.

(** [Confirm & Save] without a stored list: [KeyError], before anything
    is written or sent. *)
Lemma save_without_medications (u : Update) (w : World) :
  text u = CONFIRM_AND_SAVE ->
  user_data w !! "medications" = None ->
  save_prescription u w = (w, Raise (KeyError "medications")).
Proof.
  intros Ht Hm. unfold save_prescription. rewrite decide_True by done.
  unfold get_meds, get_item, mbind, M_bind. by rewrite Hm.
Qed.

(** With the handlers as registered, [Confirm & Save] raises whenever it
    is sent in state [CONFIRM_PRESCRIPTION]. *)
Lemma confirm_always_raises (us : list Update) (d : DB) (u : Update) :
  conversations (fst (run us (started d))) !! effective_user u = Some CONFIRM_PRESCRIPTION ->
  command u = None ->
  text u = CONFIRM_AND_SAVE ->
  raised (snd (process_update u (fst (run us (started d))))) = Some (KeyError "medications").
Proof.
  intros Hst Hcmd Ht.
  destruct (registered_never_persists us d) as [Hno _].
  unfold process_update, route. rewrite Hst, Hcmd. unfold handle.
  cbn [states handler_of call].
  rewrite save_without_medications; [done..|apply Hno].
Qed.

(** C1: the code at the failing input.  In state [CONFIRM_PRESCRIPTION]
    a well-formed medication line is answered with the cancellation
    message, the conversation ends and no medication is stored;
    [confirm_prescription], which would parse the line, store the entry
    and stay in the state, is not the handler of that state. *)
Theorem replacement_text_cancels :
  conversations in_review !! 5 = Some CONFIRM_PRESCRIPTION /\
  route (Some CONFIRM_PRESCRIPTION) replacement = Some (InConversation h_save_prescription) /\
  replies (snd (process_update replacement in_review)) = [CANCELLED] /\
  conversations (fst (process_update replacement in_review)) !! 5 = None /\
  session_of (fst (process_update replacement in_review)) 5 !! "medications" = None /\
  user_data (fst (confirm_prescription replacement (world_of in_review replacement)))
    !! "medications"
    = Some (VMeds [mk_med "Aspirin 100mg" "100mg" "10 tablets" "once daily"]) /\
  snd (confirm_prescription replacement (world_of in_review replacement))
    = Ok (To CONFIRM_PRESCRIPTION).
Proof. vm_compute. repeat split; reflexivity. Qed.

(** C7: the code at the failing input.  In state [CONFIRM_PRESCRIPTION],
    where the medications are awaited, a text in which the parser finds
    no medication is answered with the cancellation message and the
    conversation ends; [user_data] stays as it was.  The format reminder
    and the return to the same state are what [confirm_prescription]
    does, which is not the handler of that state. *)
Theorem empty_parse_cancels :
  conversations in_review !! 5 = Some CONFIRM_PRESCRIPTION /\
  parse_medications (text sample_chatter) = [] /\
  route (Some CONFIRM_PRESCRIPTION) sample_chatter = Some (InConversation h_save_prescription) /\
  snd (process_update sample_chatter in_review) = mk_outcome [CANCELLED] None /\
  conversations (fst (process_update sample_chatter in_review)) !! 5 = None /\
  session_of (fst (process_update sample_chatter in_review)) 5 = session_of in_review 5 /\
  confirm_prescription sample_chatter (world_of in_review sample_chatter) =
    (mk_world (session_of in_review 5) clinic [Message INVALID_FORMAT NoMarkup false],
     Ok (To CONFIRM_PRESCRIPTION)).
Proof. vm_compute. repeat split; reflexivity. Qed.

(** C3: the code at the failing input.  [Confirm & Save] sent right after
    the prescription prompt raises [KeyError] for the key [medications];
    nothing is sent, and the conversation stays where it was. *)
Theorem confirm_without_list_raises :
  conversations in_review !! 5 = Some CONFIRM_PRESCRIPTION /\
  session_of in_review 5 !! "medications" = None /\
  snd (process_update (message 5 CONFIRM_AND_SAVE) in_review)
    = mk_outcome [] (Some (KeyError "medications")) /\
  conversations (fst (process_update (message 5 CONFIRM_AND_SAVE) in_review)) !! 5
    = Some CONFIRM_PRESCRIPTION.
Proof. vm_compute. repeat split; reflexivity. Qed.

(* ===================================================================== *)
(** * Cancelling *)
(* ===================================================================== *)

(** C4, as stated, fails: after [/cancel] the chosen patient and the
    diagnosis are still in [user_data]. *)
Lemma cancel_clears_session_fails : ~ cancel_clears_session.
Proof.
  intros H.
  destruct (H in_review (slash 5 "cancel") CONFIRM_PRESCRIPTION eq_refl eq_refl)
    as [_ Hempty].
  assert (Hd : session_of (fst (process_update (slash 5 "cancel") in_review))
                 (effective_user (slash 5 "cancel"))
                 !! "diagnosis" = Some (VStr "Acute gastritis")) by reflexivity.
  rewrite Hempty in Hd. by rewrite lookup_empty in Hd.
Qed.

(** What is left over is there when the next sub-flow starts. *)
Example leftover_after_cancel :
  session_of
    (fst (run [slash 5 "cancel"; message 5 CREATE_PRESCRIPTION] in_review)) 5
  = {[ "selected_patient_id" := VInt 1; "diagnosis" := VStr "Acute gastritis" ]}.
Proof. vm_compute. reflexivity. Qed.

(** C4, amended: in every state of a conversation a cancel request ends
    the conversation with the cancellation message; the [user_data] of
    every user and the database stay as they were. *)
Theorem cancel_keeps_session (b : Bot) (u : Update) (s : State) :
  conversations b !! effective_user u = Some s ->
  cancel_request s u ->
  conversations (fst (process_update u b)) !! effective_user u = None /\
  (forall uid, session_of (fst (process_update u b)) uid = session_of b uid) /\
  storage (fst (process_update u b)) = storage b /\
  snd (process_update u b) = mk_outcome [CANCELLED] None.
Proof.
  intros Hst Hreq.
  assert (Hrun : process_update u b =
            (mk_bot (delete (effective_user u) (conversations b))
               (<[effective_user u := session_of b (effective_user u)]> (sessions b))
               (storage b),
             mk_outcome [CANCELLED] None)).
  { destruct Hreq as [Hcmd|[(Hcmd & -> & Ht)|(Hcmd & -> & Ht)]].
    - unfold process_update, route. rewrite Hst, Hcmd.
      rewrite decide_False by discriminate. by rewrite decide_True.
    - unfold process_update, route. rewrite Hst, Hcmd. unfold handle.
      cbn [states handler_of call].
      by rewrite (cancel_choice_ends u _ Ht).
    - apply review_other_text; try done; rewrite Ht; vm_compute; discriminate. }
  rewrite Hrun. cbn. split_and!; try done.
  - apply lookup_delete_eq.
  - intros uid. unfold session_of at 1. cbn.
    destruct (decide (uid = effective_user u)) as [->|Hne].
    + by rewrite lookup_insert_eq.
    + by rewrite lookup_insert_ne.
Qed.

Lemma cancel_keeps_session_witness :
  conversations in_review !! effective_user (slash 5 "cancel") = Some CONFIRM_PRESCRIPTION /\
  cancel_request CONFIRM_PRESCRIPTION (slash 5 "cancel") /\
  conversations (fst (process_update (slash 5 "cancel") in_review)) !! 5 = None /\
  (forall uid,
     session_of (fst (process_update (slash 5 "cancel") in_review)) uid =
     session_of in_review uid) /\
  storage (fst (process_update (slash 5 "cancel") in_review)) = storage in_review /\
  snd (process_update (slash 5 "cancel") in_review) = mk_outcome [CANCELLED] None.
Proof.
  assert (Hst : conversations in_review !! effective_user (slash 5 "cancel")
                = Some CONFIRM_PRESCRIPTION) by reflexivity.
  assert (Hreq : cancel_request CONFIRM_PRESCRIPTION (slash 5 "cancel"))
    by (left; reflexivity).
  split; [exact Hst|]. split; [exact Hreq|].
  exact (cancel_keeps_session in_review (slash 5 "cancel") CONFIRM_PRESCRIPTION Hst Hreq).
Defined.

(* ===================================================================== *)
(** * Searching *)
(* ===================================================================== *)

(** Outside a conversation a plain text that is no menu label reaches
    [button_handler], which has no branch for it: nothing is sent. *)
Lemma unknown_text_ignored (u : Update) (b : Bot) :
  conversations b !! effective_user u = None ->
  command u = None ->
  text u ∉ [ADD_NEW_PATIENT; ADD_NEW_PATIENT +:+ nl; CREATE_PRESCRIPTION;
            CREATE_PRESCRIPTION +:+ nl; VIEW_PATIENTS; VIEW_PRESCRIPTIONS;
            SEARCH_PATIENT; STATISTICS; MAIN_MENU] ->
  snd (process_update u b) = mk_outcome [] None
  /\ storage (fst (process_update u b)) = storage b.
Proof.
  intros Hst Hcmd Hlabel.
  repeat (apply not_elem_of_cons in Hlabel as [? Hlabel]).
  unfold process_update, route, entry_points, regex_whole. rewrite Hst, Hcmd.
  rewrite !bool_decide_eq_false_2 by done. cbn [orb].
  unfold handle. cbn [handler_of call]. unfold button_handler.
  by rewrite !decide_False.
Qed.

(** C8: the code at the failing input.  The search prompt is shown and
    changes nothing in the bot; the name sent next is answered with
    nothing, although [handle_search] finds the patient by it (by
    [jane] as well): no handler registration leads to [handle_search]. *)
Theorem search_term_ignored :
  snd (run [message 5 SEARCH_PATIENT] (started clinic)) =
    [ mk_outcome
        [ Message ("🔍 **Patient Search**" +:+ nl +:+ nl
                   +:+ "Enter patient name or phone number to search:")
            ReplyKeyboardRemove false ] None ] /\
  conversations after_search_prompt !! 5 = None /\
  route (conversations after_search_prompt !! 5) (message 5 "Jane")
    = Some (Direct h_button_handler) /\
  snd (process_update (message 5 "Jane") after_search_prompt) = mk_outcome [] None /\
  search_patients 5 "jane" clinic = patients clinic /\
  outbox (fst (handle_search (message 5 "Jane") (world_of after_search_prompt (message 5 "Jane"))))
    = [ Message ("🔍 **Search Results for 'Jane':**" +:+ nl +:+ nl +:+ "
**Jane Doe** (ID: 1)
🎂 Age: 40 years  
📱 Phone: 555-1234
---
") NoMarkup true ].
Proof. vm_compute. repeat split; reflexivity. Qed.

(* ===================================================================== *)
(** * Dates shown to the operator *)
(* ===================================================================== *)

Lemma zero_pad_two (n : nat) : Z.of_nat n < 100 -> two_digits (zero_pad 2 n) = true.
Proof.
  intros Hn.
  assert (Hall : forallb (fun n => two_digits (zero_pad 2 n)) (seq 0 (Z.to_nat 100)) = true)
    by (vm_compute; reflexivity).
  rewrite forallb_forall in Hall. apply Hall, in_seq. lia.
Qed.

Lemma zero_pad_four (n : nat) : Z.of_nat n < 10000 -> four_digits (zero_pad 4 n) = true.
Proof.
  intros Hn.
  assert (Hall : forallb (fun n => four_digits (zero_pad 4 n)) (seq 0 (Z.to_nat 10000)) = true)
    by (vm_compute; reflexivity).
  rewrite forallb_forall in Hall. apply Hall, in_seq. lia.
Qed.

Lemma year_four_digits (n : nat) :
  1000 <= Z.of_nat n < 10000 -> four_digits (pretty n) = true.
Proof.
  intros Hn.
  assert (Hall : forallb (fun n => four_digits (pretty n)) (seq 1000 (Z.to_nat 9000)) = true)
    by (vm_compute; reflexivity).
  rewrite forallb_forall in Hall. apply Hall, in_seq. lia.
Qed.

Lemma year_short (n : nat) :
  Z.of_nat n < 1000 -> Z.of_nat (String.length (pretty n)) < 4.
Proof.
  intros Hn.
  assert (Hall : forallb (fun n => Nat.ltb (String.length (pretty n)) 4)
                   (seq 0 (Z.to_nat 1000)) = true)
    by (vm_compute; reflexivity).
  rewrite forallb_forall in Hall.
  assert (Hin : In n (seq 0 (Z.to_nat 1000))) by (apply in_seq; lia).
  apply Hall, Nat.ltb_lt in Hin. lia.
Qed.

(** [strftime("%d-%m-%Y")] gives the shape DD-MM-YYYY from the year 1000
    on. *)
Lemma strftime_dmy_day_first (d : datetime) :
  calendar d -> 1000 <= Z.of_nat (year d) -> is_dd_mm_yyyy (strftime_dmy d) = true.
Proof.
  intros (Hy & Hm & Hd) Hy'. unfold strftime_dmy.
  pose proof (zero_pad_two (day d) ltac:(lia)) as H1.
  pose proof (zero_pad_two (month d) ltac:(lia)) as H2.
  pose proof (year_four_digits (year d) ltac:(lia)) as H3.
  destruct (zero_pad 2 (day d)) as [|d1 [|d2 [|]]]; try discriminate H1.
  destruct (zero_pad 2 (month d)) as [|m1 [|m2 [|]]]; try discriminate H2.
  destruct (pretty (year d)) as [|y1 [|y2 [|y3 [|y4 [|]]]]]; try discriminate H3.
  cbn in H1, H2, H3 |- *.
  repeat match goal with H : _ && _ = true |- _ => apply andb_true_iff in H as [? ?] end.
  repeat (apply andb_true_iff; split); done.
Qed.

(** Before the year 1000 the year is printed in fewer than four digits. *)
Lemma strftime_dmy_short_year (d : datetime) :
  calendar d -> Z.of_nat (year d) < 1000 -> is_dd_mm_yyyy (strftime_dmy d) = false.
Proof.
  intros (Hy & Hm & Hd) Hy'. unfold strftime_dmy.
  pose proof (zero_pad_two (day d) ltac:(lia)) as H1.
  pose proof (zero_pad_two (month d) ltac:(lia)) as H2.
  pose proof (year_short (year d) Hy') as H3.
  destruct (zero_pad 2 (day d)) as [|d1 [|d2 [|]]]; try discriminate H1.
  destruct (zero_pad 2 (month d)) as [|m1 [|m2 [|]]]; try discriminate H2.
  destruct (pretty (year d)) as [|y1 [|y2 [|y3 [|y4 [|]]]]]; try reflexivity.
  cbn [String.length] in H3. lia.
Qed.

Example strftime_dmy_year_999 :
  strftime_dmy (mk_datetime 999 1 2 0 0 0) = "02-01-999" /\
  isoformat (mk_datetime 999 1 2 0 0 0) = "0999-01-02".
Proof. split; reflexivity. Qed.

(** The text kept in a date column has the year first: it is never of
    the shape DD-MM-YYYY. *)
Lemma isoformat_year_first (d : datetime) :
  calendar d -> is_dd_mm_yyyy (isoformat d) = false.
Proof.
  intros (Hy & Hm & Hd). unfold isoformat.
  pose proof (zero_pad_four (year d) ltac:(lia)) as H3.
  destruct (zero_pad 4 (year d)) as [|y1 [|y2 [|y3 [|y4 [|]]]]]; try discriminate H3.
  cbn in H3. repeat (apply andb_true_iff in H3 as [H3 ?]).
  rewrite !app_String. unfold is_dd_mm_yyyy.
  destruct y3 as [[] [] [] [] [] [] [] []]; try done.
Qed.

(** The row [save_prescription] writes holds the date in that text, and
    the listing prints the column as it is. *)
Lemma saved_admission_date (u : Update) (w : World) (row : PrescriptionRow) :
  prescriptions (database (fst (save_prescription u w))) =
    (prescriptions (database w) ++ [row])%list ->
  rx_admission_date row = isoformat (now u).
Proof.
  destruct w as [ud d o].
  unfold save_prescription, cancel, get_meds, get_int, get_str, get_item, bind_int,
    insert_prescription, get_db, put_db, reply_text, raise, mbind, M_bind, mret, M_ret.
  cbn [user_data database outbox fst snd].
  repeat (case_match; simplify_eq/=);
    intros Hrow;
    try (by apply (f_equal length) in Hrow; rewrite length_app in Hrow; cbn in Hrow; lia).
  apply app_inj_tail in Hrow as [_ <-]. reflexivity.
Qed.

(** C10: the code at the failing input.  The listing of prescriptions
    prints the admission date as the database holds it, year first; the
    confirmation of the same prescription printed it day first. *)
Theorem listing_date_year_first :
  snd (process_update (message 5 VIEW_PRESCRIPTIONS) archive) =
    mk_outcome
      [ Message ("📋 **Recent Prescriptions:**" +:+ nl +:+ nl +:+ "
**Prescription #1**
👤 Patient: Jane Doe
🏥 Diagnosis: Acute gastritis
📅 Date: 2026-11-03
💊 Medications: 4 items
---
") NoMarkup true ] None /\
  rx_admission_date <$> prescriptions (storage archive) = ["2026-11-03"] /\
  is_dd_mm_yyyy "2026-11-03" = false /\
  strftime_dmy sample_time = "03-11-2026" /\
  is_dd_mm_yyyy (strftime_dmy sample_time) = true.
Proof. vm_compute. repeat split; reflexivity. Qed.

(** The three other places print the date day first. *)
Example dates_day_first :
  replies (snd (process_update (message 5 VIEW_PATIENTS) archive)) =
    [ Message ("👥 **Patient List:**" +:+ nl +:+ nl +:+ "
**Jane Doe** (ID: 1)
🎂 Age: 40 years
📱 Phone: 555-1234
📅 Added: 03-11-2026
---
") NoMarkup true ].
Proof. vm_compute. reflexivity. Qed.

(* ===================================================================== *)
(** * The shapes of the values in [user_data] *)
(* ===================================================================== *)

(** Two memberships of one key in lists of different keys. *)
Ltac clash Hk Hv :=
  first [ subst; apply list_elem_of_In in Hk; cbn in Hk; intuition discriminate
        | apply list_elem_of_In in Hk, Hv; cbn in Hk, Hv;
          intuition (subst; discriminate) ].

Section Shaped.
Lemma shaped_ret {A} (a : A) : shaped (mret a).
Proof. by intros w H. Qed.

Lemma shaped_raise {A} (e : exn) :
  (forall k, e <> IllShaped k) -> shaped (@raise A e).
Proof.
  intros He w H. split; [done|]. cbn.
  destruct e as [k| | | |k]; try done. by destruct (He k).
Qed.

Lemma shaped_bind {A B} (m : M A) (f : A -> M B) :
  shaped m -> (forall a, shaped (f a)) -> shaped (m ≫= f).
Proof.
  intros Hm Hf w H. unfold mbind, M_bind.
  destruct (Hm w H) as [H1 H2]. destruct (m w) as [w' [a|e]]; cbn in *.
  - by apply Hf.
  - done.
Qed.

Lemma shaped_reply_text body mk md : shaped (reply_text body mk md).
Proof. by intros w H. Qed.

Lemma shaped_send r : shaped (send r).
Proof. by intros w H. Qed.

Lemma shaped_get_db : shaped get_db.
Proof. by intros w H. Qed.

Lemma shaped_bind_int n : shaped (bind_int n).
Proof. intros w H. unfold bind_int. by destruct (fits_int64 n). Qed.

Lemma shaped_insert_patient nm age phone uid ts :
  shaped (insert_patient nm age phone uid ts).
Proof.
  intros w H. unfold insert_patient, get_db, put_db, raise, mbind, M_bind.
  by destruct (next_rowid _).
Qed.

Lemma shaped_insert_prescription pid dg today meds ts :
  shaped (insert_prescription pid dg today meds ts).
Proof.
  intros w H. unfold insert_prescription, get_db, put_db, raise, mbind, M_bind.
  by destruct (next_rowid _).
Qed.

Lemma shaped_set_item k v : shape_of k v -> shaped (set_item k v).
Proof.
  intros Hs w H. split; [|done]. cbn. intros k' v'.
  rewrite lookup_insert. case_decide; [intros [= <-]; by subst | apply H].
Qed.

Lemma shaped_get_str k :
  k ∈ ["patient_name"; "patient_phone"; "diagnosis"] -> shaped (get_str k).
Proof.
  intros Hk w H. unfold get_str, get_item, mbind, M_bind.
  destruct (user_data w !! k) as [[s|n|l]|] eqn:Hv; cbn; split; try done;
    apply H in Hv; cbn in Hv; clash Hk Hv.
Qed.

Lemma shaped_get_int k :
  k ∈ ["patient_age"; "current_patient_id"; "selected_patient_id"] -> shaped (get_int k).
Proof.
  intros Hk w H. unfold get_int, get_item, mbind, M_bind.
  destruct (user_data w !! k) as [[s|n|l]|] eqn:Hv; cbn; split; try done;
    apply H in Hv; cbn in Hv; clash Hk Hv.
Qed.

Lemma shaped_get_meds : shaped (get_meds "medications").
Proof.
  intros w H. unfold get_meds, get_item, mbind, M_bind.
  destruct (user_data w !! "medications") as [[s|n|l]|] eqn:Hv; cbn; split; try done;
    apply H in Hv; cbn in Hv; apply list_elem_of_In in Hv; cbn in Hv;
    intuition discriminate.
Qed.
End Shaped.

Ltac shaped_step :=
  first
    [ assumption
    | apply shaped_ret | apply shaped_raise; discriminate
    | apply shaped_get_str; apply list_elem_of_In; cbn; tauto
    | apply shaped_get_int; apply list_elem_of_In; cbn; tauto
    | apply shaped_get_meds | apply shaped_get_db | apply shaped_bind_int
    | apply shaped_reply_text | apply shaped_send
    | apply shaped_insert_patient | apply shaped_insert_prescription
    | apply shaped_set_item; cbn; first [reflexivity | apply list_elem_of_In; cbn; tauto]
    | apply shaped_bind; [|intros ?]
    | case_decide | case_match ].

Lemma shaped_cancel u : shaped (cancel u).
Proof. unfold cancel. repeat shaped_step. Qed.

Lemma shaped_call (h : Handler) (u : Update) : shaped (call h u).
Proof.
  pose proof (shaped_cancel u) as Hcancel.
  assert (Hstart : shaped (start u)) by (unfold start; repeat shaped_step).
  assert (Hadd : shaped (add_patient_start u))
    by (unfold add_patient_start; repeat shaped_step).
  assert (Hcreate : shaped (create_prescription_start u))
    by (unfold create_prescription_start; repeat shaped_step).
  assert (Hvp : shaped (view_patients u)) by (unfold view_patients; repeat shaped_step).
  assert (Hvr : shaped (view_prescriptions u))
    by (unfold view_prescriptions; repeat shaped_step).
  assert (Hsp : shaped (search_patient u)) by (unfold search_patient; repeat shaped_step).
  assert (Hst : shaped (statistics u)) by (unfold statistics; repeat shaped_step).
  destruct h; cbn [call]; try assumption.
  - unfold patient_name. repeat shaped_step.
  - unfold patient_age. repeat shaped_step.
  - unfold patient_phone. repeat shaped_step.
  - unfold patient_diagnosis. repeat shaped_step.
  - unfold prescription_input. repeat shaped_step.
  - unfold confirm_prescription. repeat shaped_step.
  - unfold save_prescription. repeat shaped_step.
  - unfold handle_search. repeat shaped_step.
  - unfold button_handler. repeat shaped_step.
Qed.

(** No handler call of the bot, in any order from a fresh start, reads a
    value of the wrong shape: [IllShaped] is never raised. *)
Lemma handle_well_shaped (r : Route) (u : Update) (b : Bot) :
  all_sessions well_shaped b ->
  all_sessions well_shaped (fst (handle r u b))
  /\ forall k, raised (snd (handle r u b)) <> Some (IllShaped k).
Proof.
  intros H.
  destruct (shaped_call (handler_of r) u (world_of b u) (H _)) as [H1 H2].
  split.
  - intros uid. rewrite session_of_handle. case_decide; [done | apply H].
  - intros k. unfold handle. fold (world_of b u).
    destruct (call (handler_of r) u (world_of b u)) as [w [a|e]]; cbn in *; [done|].
    intros [= ->]. done.
Qed.

Lemma invoke_well_shaped (steps : list (Route * Update)) (d : DB) :
  all_sessions well_shaped (invoke steps (started d)).
Proof.
  assert (G : forall b, all_sessions well_shaped b -> all_sessions well_shaped (invoke steps b)).
  { induction steps as [|[r u] steps IH]; intros b H; cbn; [done|].
    apply IH. by apply handle_well_shaped. }
  apply G. intros uid k v. by rewrite session_of_started, lookup_empty.
Qed.

Lemma never_ill_shaped (steps : list (Route * Update)) (d : DB) (r : Route) (u : Update) (k : string) :
  raised (snd (handle r u (invoke steps (started d)))) <> Some (IllShaped k).
Proof. apply handle_well_shaped, invoke_well_shaped. Qed.
(* ===================================================================== *)
(** * Handlers that only answer *)
(* ===================================================================== *)

(** The effect of the monad's operations, spelled out. *)
Ltac run_monad :=
  unfold get_meds, get_int, get_str, get_item, set_item, bind_int, insert_patient,
    insert_prescription, get_db, put_db, reply_text, send, raise,
    mbind, M_bind, mret, M_ret;
  cbn [user_data database outbox fst snd].

Lemma answers_only_one (h : Handler) (u : Update) (w : World) :
  h <> h_button_handler -> answers_only h = true ->
  exists r x,
    call h u w = (mk_world (user_data w) (database w) (outbox w ++ [r]), Ok x).
Proof.
  intros Hb Hh. destruct w as [ud d o].
  destruct h; try discriminate Hh; try done; cbn [call];
    unfold start, add_patient_start, create_prescription_start, view_patients,
      view_prescriptions, search_patient, handle_search, statistics, cancel;
    run_monad; repeat case_match; eauto.
Qed.

(** X1: the menu and listing handlers ([start], [add_patient_start],
    [create_prescription_start], [view_patients], [view_prescriptions],
    [search_patient], [handle_search], [statistics], [cancel] and
    [button_handler] over them) never raise and leave [user_data] and the
    database as they are; they send one message, [button_handler] none
    for a text that is no menu label. *)
Theorem answers_only_handlers (h : Handler) (u : Update) (w : World) :
  answers_only h = true ->
  exists rs x,
    call h u w = (mk_world (user_data w) (database w) (outbox w ++ rs), Ok x)
    /\ (length rs <= 1)%nat
    /\ (h <> h_button_handler -> length rs = 1%nat).
Proof.
  intros Hh. destruct (decide (h = h_button_handler)) as [->|Hb].
  - cbn [call]. unfold button_handler.
    pose proof (answers_only_one h_add_patient_start u w ltac:(done) eq_refl) as (r1 & x1 & H1).
    pose proof (answers_only_one h_view_patients u w ltac:(done) eq_refl) as (r2 & x2 & H2).
    pose proof (answers_only_one h_create_prescription_start u w ltac:(done) eq_refl)
      as (r3 & x3 & H3).
    pose proof (answers_only_one h_view_prescriptions u w ltac:(done) eq_refl)
      as (r4 & x4 & H4).
    pose proof (answers_only_one h_search_patient u w ltac:(done) eq_refl) as (r5 & x5 & H5).
    pose proof (answers_only_one h_statistics u w ltac:(done) eq_refl) as (r6 & x6 & H6).
    pose proof (answers_only_one h_start u w ltac:(done) eq_refl) as (r7 & x7 & H7).
    cbn [call] in *.
    repeat case_decide; unfold mbind, M_bind, mret, M_ret;
      rewrite ?H1, ?H2, ?H3, ?H4, ?H5, ?H6, ?H7;
      try (eexists [_], _; split_and!; [reflexivity | cbn; lia | done]).
    exists [], NoReturn. rewrite app_nil_r. destruct w. split_and!; [reflexivity | cbn; lia | done].
  - destruct (answers_only_one h u w Hb Hh) as (r & x & Hr).
    exists [r], x. split_and!; [done | cbn; lia | done].
Qed.

Lemma answers_only_handlers_witness :
  answers_only h_view_patients = true /\
  exists rs x,
    call h_view_patients (message 5 VIEW_PATIENTS) sample_listing =
      (mk_world (user_data sample_listing) (database sample_listing)
         (outbox sample_listing ++ rs), Ok x)
    /\ (length rs <= 1)%nat
    /\ (h_view_patients <> h_button_handler -> length rs = 1%nat).
Proof.
  split; [reflexivity|].
  exact (answers_only_handlers h_view_patients (message 5 VIEW_PATIENTS) sample_listing eq_refl).
Defined.

(* ===================================================================== *)
(** * The tables only grow *)
(* ===================================================================== *)

Section KeepsTables.
Variable I : World -> Prop.
Hypothesis I_outbox :
  forall ud d o o', I (mk_world ud d o) -> I (mk_world ud d o').
Hypothesis I_any_item :
  forall k v ud d o, I (mk_world ud d o) -> I (mk_world (<[k := v]> ud) d o).
Hypothesis I_new_patient :
  forall ud ps rxs o row,
    I (mk_world ud (mk_db ps rxs) o) -> I (mk_world ud (mk_db (ps ++ [row]) rxs) o).
Hypothesis I_new_prescription :
  forall ud ps rxs o row,
    I (mk_world ud (mk_db ps rxs) o) -> I (mk_world ud (mk_db ps (rxs ++ [row])) o).

Lemma grows_set_item (k : string) (v : value) : keeps I (set_item k v).
Proof. intros [ud d o] H. cbn. by apply I_any_item. Qed.

Lemma grows_insert_patient nm age phone uid ts :
  keeps I (insert_patient nm age phone uid ts).
Proof.
  intros [ud [ps rxs] o] H. unfold insert_patient, get_db, put_db, raise, mbind, M_bind.
  cbn [database patients prescriptions]. destruct (next_rowid _); cbn; [|done].
  by apply I_new_patient.
Qed.

Lemma grows_insert_prescription pid dg today meds ts :
  keeps I (insert_prescription pid dg today meds ts).
Proof.
  intros [ud [ps rxs] o] H. unfold insert_prescription, get_db, put_db, raise, mbind, M_bind.
  cbn [database patients prescriptions]. destruct (next_rowid _); cbn; [|done].
  by apply I_new_prescription.
Qed.

(** Every handler keeps an invariant that allows writes to [user_data]
    and new rows at the end of the tables. *)
Lemma grows_call (h : Handler) (u : Update) : keeps I (call h u).
Proof.
  assert (Hcancel : keeps I (cancel u)) by (unfold cancel; repeat keeps_step).
  assert (Hstart : keeps I (start u)) by (unfold start; repeat keeps_step).
  assert (Hadd : keeps I (add_patient_start u))
    by (unfold add_patient_start; repeat keeps_step).
  assert (Hcreate : keeps I (create_prescription_start u))
    by (unfold create_prescription_start; repeat keeps_step).
  assert (Hvp : keeps I (view_patients u)) by (unfold view_patients; repeat keeps_step).
  assert (Hvr : keeps I (view_prescriptions u))
    by (unfold view_prescriptions; repeat keeps_step).
  assert (Hsp : keeps I (search_patient u)) by (unfold search_patient; repeat keeps_step).
  assert (Hst : keeps I (statistics u)) by (unfold statistics; repeat keeps_step).
  destruct h; cbn [call]; try assumption.
  - unfold patient_name.
    repeat first [apply grows_set_item | keeps_step].
  - unfold patient_age.
    repeat first [apply grows_set_item | keeps_step].
  - unfold patient_phone.
    repeat first [apply grows_set_item | apply grows_insert_patient | keeps_step].
  - unfold patient_diagnosis.
    repeat first [assumption | apply grows_set_item | keeps_step].
  - unfold prescription_input.
    repeat first [apply grows_set_item | keeps_step].
  - unfold confirm_prescription.
    repeat first [apply grows_set_item | keeps_step].
  - unfold save_prescription.
    repeat first [assumption | apply grows_insert_prescription | keeps_step].
  - unfold handle_search. repeat keeps_step.
  - unfold button_handler. repeat first [assumption | keeps_step].
Qed.
End KeepsTables.

(** X2: no handler, registered or not, changes or removes a row: after
    any handler calls both tables begin with the rows they had. *)
Theorem tables_only_grow (steps : list (Route * Update)) (b : Bot) :
  patients (storage b) `prefix_of` patients (storage (invoke steps b)) /\
  prescriptions (storage b) `prefix_of` prescriptions (storage (invoke steps b)).
Proof.
  revert b. induction steps as [|[r u] steps IH]; intros b; cbn [invoke]; [done|].
  destruct (IH (fst (handle r u b))) as [IH1 IH2].
  rewrite storage_handle in IH1, IH2.
  set (I := fun w : World =>
              patients (storage b) `prefix_of` patients (database w) /\
              prescriptions (storage b) `prefix_of` prescriptions (database w)).
  assert (HI : I (fst (call (handler_of r) u (world_of b u)))).
  { apply (grows_call I); unfold I; cbn; try done.
    - intros ud ps rxs o row [H1 H2]. split; [by apply prefix_app_r | done].
    - intros ud ps rxs o row [H1 H2]. split; [done | by apply prefix_app_r]. }
  destruct HI as [H1 H2]. split; by etrans.
Qed.

(* ===================================================================== *)
(** * Registering a patient *)
(* ===================================================================== *)

Lemma process_entry (u : Update) (b : Bot) (h : Handler) :
  conversations b !! effective_user u = None ->
  command u = None ->
  entry_points u = Some h ->
  process_update u b = handle (InConversation h) u b.
Proof. intros Hst Hcmd Hentry. unfold process_update, route. by rewrite Hst, Hcmd, Hentry. Qed.

Lemma process_state (u : Update) (b : Bot) (s : State) :
  conversations b !! effective_user u = Some s ->
  command u = None ->
  process_update u b = handle (InConversation (states s)) u b.
Proof. intros Hst Hcmd. unfold process_update, route. by rewrite Hst, Hcmd. Qed.

Lemma handle_in_conversation (h : Handler) (u : Update) (b : Bot) (w : World) (x : Next) :
  call h u (world_of b u) = (w, Ok x) ->
  handle (InConversation h) u b =
    (mk_bot
       match x with
       | To s => <[effective_user u := s]> (conversations b)
       | END => delete (effective_user u) (conversations b)
       | NoReturn => conversations b
       end
       (<[effective_user u := user_data w]> (sessions b)) (database w),
     mk_outcome (outbox w) None).
Proof.
  intros H. unfold handle. fold (world_of b u). cbn [handler_of]. rewrite H.
  by destruct x.
Qed.

Lemma handle_raises (r : Route) (u : Update) (b : Bot) (w : World) (e : exn) :
  call (handler_of r) u (world_of b u) = (w, Raise e) ->
  handle r u b =
    (mk_bot (conversations b) (<[effective_user u := user_data w]> (sessions b)) (database w),
     mk_outcome (outbox w) (Some e)).
Proof.
  intros H. unfold handle. fold (world_of b u). rewrite H. by destruct r.
Qed.














Lemma patient_phone_overflows (u : Update) (w : World) (nm : string) (age : Z) :
  user_data w !! "patient_name" = Some (VStr nm) ->
  user_data w !! "patient_age" = Some (VInt age) ->
  fits_int64 age = false ->
  patient_phone u w =
    (mk_world (<["patient_phone" := VStr (text u)]> (user_data w)) (database w) (outbox w),
     Raise OverflowError).
Proof.
  intros Hn Ha Hfit. destruct w as [ud d o]. cbn [user_data database outbox] in *.
  unfold patient_phone. run_monad.
  rewrite (lookup_insert_ne ud "patient_phone" "patient_name") by done.
  rewrite Hn. cbn [user_data database outbox].
  rewrite (lookup_insert_ne ud "patient_phone" "patient_age") by done.
  rewrite Ha. cbn [user_data database outbox].
  rewrite (lookup_insert_eq ud "patient_phone"). cbn [user_data database outbox].
  by rewrite Hfit.
Qed.

Lemma phone_overflow_step (u : Update) (b : Bot) (nm : string) (age : Z) :
  conversations b !! effective_user u = Some PATIENT_PHONE ->
  command u = None ->
  session_of b (effective_user u) !! "patient_name" = Some (VStr nm) ->
  session_of b (effective_user u) !! "patient_age" = Some (VInt age) ->
  fits_int64 age = false ->
  snd (process_update u b) = mk_outcome [] (Some OverflowError)
  /\ storage (fst (process_update u b)) = storage b
  /\ conversations (fst (process_update u b)) !! effective_user u = Some PATIENT_PHONE
  /\ session_of (fst (process_update u b)) (effective_user u) !! "patient_name"
     = Some (VStr nm)
  /\ session_of (fst (process_update u b)) (effective_user u) !! "patient_age"
     = Some (VInt age).
Proof.
  intros Hst Hcmd Hn Ha Hfit.
  rewrite (process_state u b PATIENT_PHONE Hst Hcmd).
  erewrite handle_raises
    by (cbn [handler_of states call]; by apply (patient_phone_overflows u _ nm age)).
  cbn. split_and!; try done.
  - unfold session_of. cbn. rewrite lookup_insert_eq. cbn. by rewrite lookup_insert_ne.
  - unfold session_of. cbn. rewrite lookup_insert_eq. cbn. by rewrite lookup_insert_ne.
Qed.

(** X4: an age beyond 64 bits is accepted by [patient_age] and makes
    every phone message fail.  In state [PATIENT_PHONE] with such an age
    stored, a plain message raises [OverflowError]: no row is written,
    nothing is sent, and the conversation stays in [PATIENT_PHONE] with
    the same name and age, so the next message fails the same way. *)
Theorem oversized_age_blocks (u : Update) (b : Bot) (nm : string) (age : Z) :
  conversations b !! effective_user u = Some PATIENT_PHONE ->
  command u = None ->
  session_of b (effective_user u) !! "patient_name" = Some (VStr nm) ->
  session_of b (effective_user u) !! "patient_age" = Some (VInt age) ->
  fits_int64 age = false ->
  snd (process_update u b) = mk_outcome [] (Some OverflowError)
  /\ storage (fst (process_update u b)) = storage b
  /\ conversations (fst (process_update u b)) !! effective_user u = Some PATIENT_PHONE
  /\ session_of (fst (process_update u b)) (effective_user u) !! "patient_name"
     = Some (VStr nm)
  /\ session_of (fst (process_update u b)) (effective_user u) !! "patient_age"
     = Some (VInt age).
Proof. apply phone_overflow_step. Qed.

Lemma oversized_age_blocks_witness :
  conversations awaiting_phone !! effective_user (message 5 "555-1234") = Some PATIENT_PHONE /\
  fits_int64 9223372036854775808 = false /\
  snd (process_update (message 5 "555-1234") awaiting_phone)
    = mk_outcome [] (Some OverflowError) /\
  storage (fst (process_update (message 5 "555-1234") awaiting_phone)) = empty_db.
Proof.
  assert (H1 : conversations awaiting_phone !! effective_user (message 5 "555-1234")
               = Some PATIENT_PHONE) by reflexivity.
  assert (H2 : command (message 5 "555-1234") = None) by reflexivity.
  assert (H3 : session_of awaiting_phone (effective_user (message 5 "555-1234"))
               !! "patient_name" = Some (VStr "Jane Doe")) by reflexivity.
  assert (H4 : session_of awaiting_phone (effective_user (message 5 "555-1234"))
               !! "patient_age" = Some (VInt 9223372036854775808)) by reflexivity.
  assert (H5 : fits_int64 9223372036854775808 = false) by reflexivity.
  pose proof (oversized_age_blocks (message 5 "555-1234") awaiting_phone "Jane Doe"
                9223372036854775808 H1 H2 H3 H4 H5) as (Hout & Hdb & _).
  split_and!; [exact H1 | exact H5 | exact Hout | exact Hdb].
Defined.

(* ===================================================================== *)
(** * The keys a conversation state can rely on *)
(* ===================================================================== *)










(** A table that holds the largest rowid takes no further patient. *)
Example full_table_refuses :
  raised (snd (process_update (message 5 "555-1234")
                 (fst (run before_phone
                         (started (mk_db [mk_patient (key (2 ^ 63 - 1)) "Jane Doe" 40
                                            "555-1234" 5 sample_time] []))))))
  = Some OperationalError.
Proof. vm_compute. reflexivity. Qed.

(* ===================================================================== *)
(** * Choosing a patient from the keyboard *)
(* ===================================================================== *)

Lemma elem_of_insert_desc {A} (key : A -> datetime) (x y : A) (l : list A) :
  y ∈ insert_desc key x l <-> y = x \/ y ∈ l.
Proof.
  induction l as [|z l IH]; cbn [insert_desc].
  - rewrite list_elem_of_singleton. split; [by left|]. intros [?|H]; [done|].
    by apply elem_of_nil in H.
  - destruct (created_before (key x) (key z)).
    + rewrite !elem_of_cons, IH. tauto.
    + rewrite !elem_of_cons. tauto.
Qed.

Lemma elem_of_order_by_created_desc {A} (key : A -> datetime) (y : A) (l : list A) :
  y ∈ order_by_created_desc key l <-> y ∈ l.
Proof.
  unfold order_by_created_desc. induction l as [|x l IH]; cbn [fold_right]; [done|].
  by rewrite elem_of_insert_desc, IH, elem_of_cons.
Qed.

(** The patients on the keyboard and in the listing are the sender's. *)
Lemma recent_patients_own (uid : Z) (n : nat) (d : DB) (p : PatientRow) :
  p ∈ recent_patients uid n d -> p ∈ patients d /\ p_telegram_user_id p = uid.
Proof.
  unfold recent_patients, patients_of. intros Hp.
  apply (subseteq_take n) in Hp. apply elem_of_order_by_created_desc in Hp.
  apply list_elem_of_filter in Hp. tauto.
Qed.

Lemma create_prescription_start_keyboard (u : Update) (w : World) :
  recent_patients (effective_user u) 10 (database w) <> [] ->
  create_prescription_start u w =
    (mk_world (user_data w) (database w)
       (outbox w ++ [patient_keyboard (recent_patients (effective_user u) 10 (database w))]),
     Ok (To PATIENT_DIAGNOSIS)).
Proof.
  intros Hne. destruct w as [ud d o]. cbn [database] in Hne.
  unfold create_prescription_start. run_monad.
  destruct (recent_patients (effective_user u) 10 d); [done | reflexivity].
Qed.

Lemma patient_diagnosis_choice (u : Update) (w : World) (p : PatientRow) :
  text u = patient_choice p ->
  PyStr.contains ID_MARKER (choice_head p) = false ->
  patient_diagnosis u w =
    (mk_world (<["selected_patient_id" := VInt (p_id p)]> (user_data w)) (database w)
       (outbox w ++ [ENTER_DIAGNOSIS]),
     Ok (To PRESCRIPTION_INPUT)).
Proof.
  intros Ht Hhead. pose proof (choice_selects_patient p Hhead) as Hsel.
  unfold patient_diagnosis. rewrite Ht.
  rewrite decide_False by (intros Heq; rewrite Heq in Hsel; discriminate Hsel).
  unfold selected_id in Hsel.
  destruct (PyStr.split ID_MARKER (patient_choice p) !! 1%nat) as [piece|];
    [|discriminate Hsel].
  cbn [mbind option_bind] in Hsel. by rewrite Hsel.
Qed.

(** X6: the keyboard and the selection fit together.  Outside a
    conversation, the label brings up one row for each of the sender's
    ten newest patients and the cancel row; sending back the row of any
    patient on it whose name makes no marker of its own stores that
    patient's key as selected and asks for the diagnosis.  The patient is
    one of the sender's. *)
Theorem keyboard_choice_selects (b : Bot) (uid : Z) (p : PatientRow)
    (c0 c1 : datetime * datetime) :
  conversations b !! uid = None ->
  p ∈ recent_patients uid 10 (storage b) ->
  PyStr.contains ID_MARKER (choice_head p) = false ->
  snd (run (choosing uid p c0 c1) b) =
    [ mk_outcome [patient_keyboard (recent_patients uid 10 (storage b))] None;
      mk_outcome [ENTER_DIAGNOSIS] None ]
  /\ conversations (fst (run (choosing uid p c0 c1) b)) !! uid = Some PRESCRIPTION_INPUT
  /\ session_of (fst (run (choosing uid p c0 c1) b)) uid !! "selected_patient_id"
     = Some (VInt (p_id p))
  /\ storage (fst (run (choosing uid p c0 c1) b)) = storage b
  /\ p ∈ patients (storage b) /\ p_telegram_user_id p = uid.
Proof.
  intros Hst Hp Hhead. unfold choosing. cbn [run].
  rewrite (process_entry _ b h_create_prescription_start) by done.
  erewrite handle_in_conversation
    by (cbn [call]; apply create_prescription_start_keyboard; cbn;
        intros Hnil; rewrite Hnil in Hp; by apply elem_of_nil in Hp).
  cbv beta iota zeta.
  erewrite (process_state _ _ PATIENT_DIAGNOSIS)
    by first [cbn [conversations effective_user]; apply lookup_insert_eq | reflexivity].
  erewrite handle_in_conversation
    by (cbn [states call]; by apply (patient_diagnosis_choice _ _ p)).
  cbn. split_and!.
  - reflexivity.
  - apply lookup_insert_eq.
  - unfold session_of. cbn. rewrite lookup_insert_eq. cbn. apply lookup_insert_eq.
  - reflexivity.
  - by apply (recent_patients_own uid 10).
  - by apply (recent_patients_own uid 10 (storage b)).
Qed.

Lemma keyboard_choice_selects_witness :
  conversations (started clinic) !! 5 = None /\
  mk_patient (key 1) "Jane Doe" 40 "555-1234" 5 sample_time ∈ recent_patients 5 10 (storage (started clinic)) /\
  PyStr.contains ID_MARKER (choice_head (mk_patient (key 1) "Jane Doe" 40 "555-1234" 5 sample_time)) = false /\
  session_of (fst (run (choosing 5 (mk_patient (key 1) "Jane Doe" 40 "555-1234" 5 sample_time)
                          sample_clock sample_clock) (started clinic))) 5
    !! "selected_patient_id" = Some (VInt 1).
Proof.
  assert (H1 : conversations (started clinic) !! 5 = None) by reflexivity.
  assert (H2 : mk_patient (key 1) "Jane Doe" 40 "555-1234" 5 sample_time
               ∈ recent_patients 5 10 (storage (started clinic)))
    by (vm_compute; apply list_elem_of_here).
  assert (H3 : PyStr.contains ID_MARKER
                 (choice_head (mk_patient (key 1) "Jane Doe" 40 "555-1234" 5 sample_time)) = false)
    by reflexivity.
  split_and!; [exact H1 | exact H2 | exact H3 |].
  exact (proj1 (proj2 (proj2 (keyboard_choice_selects (started clinic) 5 _
                                sample_clock sample_clock H1 H2 H3)))).
Defined.

(* ===================================================================== *)
(** * Searching with [LIKE] *)
(* ===================================================================== *)

Lemma like_percent (p s : string) :
  like (String "%" p) s =
    like p s || match s with
                | EmptyString => false
                | String _ s' => like (String "%" p) s'
                end.
Proof. by destruct s. Qed.

Lemma like_all_percent (p s : string) :
  p <> "" -> all_percent p = true -> like p s = true.
Proof.
  revert s. induction p as [|c p IH]; intros s Hne Hall; [done|].
  cbn [all_percent] in Hall. apply andb_true_iff in Hall as [Hc Hall].
  apply Ascii.eqb_eq in Hc as ->.
  destruct p as [|c' p].
  - induction s as [|x s IHs]; [reflexivity|].
    rewrite like_percent. by rewrite IHs, orb_true_r.
  - rewrite like_percent. by rewrite IH.
Qed.

(** A term without wildcards, followed by [%], matches every text that
    begins with the term in some casing of its ASCII letters. *)
Lemma like_prefix (term seg rest : string) :
  no_wildcard term = true ->
  PyStr.lower seg = PyStr.lower term ->
  like (term +:+ "%") (seg +:+ rest) = true.
Proof.
  revert seg. induction term as [|c term IH]; intros seg Hlit Hlow.
  - destruct seg; [|discriminate Hlow]. by apply like_all_percent.
  - destruct seg as [|c' seg]; [discriminate Hlow|].
    cbn [PyStr.lower] in Hlow. injection Hlow as Hc Hlow.
    cbn [no_wildcard] in Hlit. apply andb_true_iff in Hlit as [Hc2 Hlit].
    apply andb_true_iff in Hc2 as [Hp Hu].
    apply negb_true_iff in Hp, Hu.
    rewrite !app_String. cbn [like]. rewrite Hp, Hu.
    rewrite Hc, Ascii.eqb_refl. by apply IH.
Qed.

Lemma like_skip (pattern head s : string) :
  like pattern s = true -> like (String "%" pattern) (head +:+ s) = true.
Proof.
  intros H. induction head as [|c head IH].
  - rewrite like_percent. change ("" +:+ s) with s. by rewrite H.
  - rewrite app_String, like_percent. by rewrite IH, orb_true_r.
Qed.

(** The pattern of [handle_search] finds the term anywhere in a text. *)
Lemma like_substring (term head seg rest : string) :
  no_wildcard term = true ->
  PyStr.lower seg = PyStr.lower term ->
  like ("%" +:+ term +:+ "%") (head +:+ seg +:+ rest) = true.
Proof.
  intros Hlit Hlow. change ("%" +:+ term +:+ "%") with (String "%" (term +:+ "%")).
  by apply like_skip, like_prefix.
Qed.

(** X7: the query of [handle_search] finds every patient of the sender
    whose name or phone contains the term, whatever the casing of the
    ASCII letters, when the term has none of the wildcards [%] and [_]. *)
Theorem search_finds_substring (uid : Z) (term : string) (d : DB) (p : PatientRow)
    (head seg rest : string) :
  p ∈ patients d ->
  p_telegram_user_id p = uid ->
  no_wildcard term = true ->
  PyStr.lower seg = PyStr.lower term ->
  p_name p = head +:+ seg +:+ rest \/ p_phone p = head +:+ seg +:+ rest ->
  p ∈ search_patients uid term d.
Proof.
  intros Hp Huid Hlit Hlow Hfield. unfold search_patients.
  apply list_elem_of_filter. split; [|done]. split; [|done].
  destruct Hfield as [-> | ->]; rewrite like_substring by done; [done|].
  apply orb_true_r.
Qed.

Lemma search_finds_substring_witness :
  mk_patient (key 1) "Jane Doe" 40 "555-1234" 5 sample_time ∈ patients clinic /\
  no_wildcard "DOE" = true /\
  PyStr.lower "Doe" = PyStr.lower "DOE" /\
  mk_patient (key 1) "Jane Doe" 40 "555-1234" 5 sample_time ∈ search_patients 5 "DOE" clinic.
Proof.
  assert (H1 : mk_patient (key 1) "Jane Doe" 40 "555-1234" 5 sample_time ∈ patients clinic)
    by apply list_elem_of_here.
  assert (H2 : no_wildcard "DOE" = true) by reflexivity.
  assert (H3 : PyStr.lower "Doe" = PyStr.lower "DOE") by reflexivity.
  split_and!; [exact H1 | exact H2 | exact H3 |].
  exact (search_finds_substring 5 "DOE" clinic _ "Jane " "Doe" "" H1 eq_refl H2 H3
           (or_introl eq_refl)).
Defined.

(** X8: a term that is empty or made of percent signs, as after a
    message of blanks only, selects every patient of the sender. *)
Theorem search_blank_lists_all (uid : Z) (term : string) (d : DB) :
  all_percent term = true ->
  search_patients uid term d = patients_of uid d.
Proof.
  intros Hall. unfold search_patients, patients_of.
  apply list_filter_iff. intros p.
  assert (Hlike : forall s, like ("%" +:+ term +:+ "%") s = true).
  { intros s. apply like_all_percent; [done|].
    change ("%" +:+ term +:+ "%") with (String "%" (term +:+ "%")).
    cbn [all_percent]. cbn.
    clear -Hall. induction term as [|c term IH]; [reflexivity|].
    cbn [all_percent] in Hall. apply andb_true_iff in Hall as [Hc Hall].
    rewrite app_String. cbn [all_percent]. by rewrite Hc, IH. }
  rewrite !Hlike. cbn. tauto.
Qed.

Lemma search_blank_lists_all_witness :
  all_percent (PyStr.strip "   ") = true /\
  search_patients 5 (PyStr.strip "   ") clinic = patients clinic.
Proof.
  assert (H : all_percent (PyStr.strip "   ") = true) by reflexivity.
  split; [exact H|].
  exact (search_blank_lists_all 5 (PyStr.strip "   ") clinic H).
Defined.

(* ===================================================================== *)
(** * Previewing and saving a prescription *)
(* ===================================================================== *)

(** X9: [confirm_prescription] stores the parsed list before it looks
    anything up.  Whenever the parser finds a medication, the list is in
    [user_data] afterwards and the database is untouched, also when the
    handler raises: [KeyError] without a selected patient, [TypeError]
    when no row has the selected key, [KeyError] without a diagnosis. *)
Theorem confirm_stores_before_lookup (u : Update) (w : World) :
  parse_medications (text u) <> [] ->
  user_data (fst (confirm_prescription u w)) =
    <["medications" := VMeds (parse_medications (text u))]> (user_data w)
  /\ database (fst (confirm_prescription u w)) = database w
  /\ (user_data w !! "selected_patient_id" = None ->
      snd (confirm_prescription u w) = Raise (KeyError "selected_patient_id"))
  /\ (forall n,
        user_data w !! "selected_patient_id" = Some (VInt n) ->
        fits_int64 n = true ->
        patient_by_id n (database w) = None ->
        snd (confirm_prescription u w) = Raise TypeError)
  /\ (forall n,
        user_data w !! "selected_patient_id" = Some (VInt n) ->
        fits_int64 n = true ->
        is_Some (patient_by_id n (database w)) ->
        user_data w !! "diagnosis" = None ->
        snd (confirm_prescription u w) = Raise (KeyError "diagnosis")).
Proof.
  intros Hne. destruct w as [ud d o]. unfold confirm_prescription.
  destruct (parse_medications (text u)) as [|m l]; [done|].
  run_monad.
  rewrite (lookup_insert_ne ud "medications" "selected_patient_id") by done.
  split_and!.
  - repeat (case_match; simplify_eq/=); reflexivity.
  - repeat (case_match; simplify_eq/=); reflexivity.
  - intros ->. reflexivity.
  - intros n -> Hfit Hnone. cbn [user_data database outbox]. rewrite Hfit.
    cbn [user_data database outbox]. by rewrite Hnone.
  - intros n -> Hfit [p Hp] Hd. cbn [user_data database outbox]. rewrite Hfit.
    cbn [user_data database outbox]. rewrite Hp. cbn [user_data database outbox].
    rewrite (lookup_insert_ne ud "medications" "diagnosis") by done. by rewrite Hd.
Qed.

Lemma confirm_stores_before_lookup_witness :
  parse_medications (text (message 5 "h.pylori")) <> [] /\
  user_data (fst (confirm_prescription (message 5 "h.pylori") (mk_world ∅ empty_db [])))
    = {["medications" := VMeds h_pylori_medications]} /\
  snd (confirm_prescription (message 5 "h.pylori") (mk_world ∅ empty_db []))
    = Raise (KeyError "selected_patient_id").
Proof.
  assert (H : parse_medications (text (message 5 "h.pylori")) <> [])
    by (vm_compute; discriminate).
  destruct (confirm_stores_before_lookup (message 5 "h.pylori") (mk_world ∅ empty_db []) H)
    as (Hud & _ & Hkey & _).
  split_and!; [exact H | exact Hud | exact (Hkey eq_refl)].
Defined.





(* ===================================================================== *)
(** * What the registered handlers cannot do, and commands *)
(* ===================================================================== *)

(** X11: with the handlers as [run] registers them, no sequence of
    updates, from whichever users, adds a prescription or stores a
    medication list: [confirm_prescription], the one handler that writes
    the list [save_prescription] needs, is bound to no state. *)
Theorem no_run_saves_prescription (us : list Update) (d : DB) :
  prescriptions (storage (fst (run us (started d)))) = prescriptions d
  /\ forall uid, session_of (fst (run us (started d))) uid !! "medications" = None.
Proof.
  destruct (run_no_medications us (started d)) as [Hmeds Hrx]; [done|].
  split; [exact Hrx | exact Hmeds].
Qed.

(** X12: commands, whose names are compared in lower case.  [/start]
    shows the menu in every state and leaves the conversation and the
    data where they are; [/cancel] in a conversation ends it with the
    cancellation message and leaves the data; [/cancel] outside a
    conversation and every other command do nothing at all. *)
Theorem command_handling (u : Update) (b : Bot) (c : string) :
  command u = Some c ->
  (PyStr.lower c = "start" ->
   snd (process_update u b) = mk_outcome [Message welcome_text main_keyboard true] None
   /\ conversations (fst (process_update u b)) = conversations b
   /\ (forall uid, session_of (fst (process_update u b)) uid = session_of b uid)
   /\ storage (fst (process_update u b)) = storage b)
  /\ (PyStr.lower c = "cancel" ->
      is_Some (conversations b !! effective_user u) ->
      snd (process_update u b) = mk_outcome [CANCELLED] None
      /\ conversations (fst (process_update u b)) = delete (effective_user u) (conversations b)
      /\ (forall uid, session_of (fst (process_update u b)) uid = session_of b uid)
      /\ storage (fst (process_update u b)) = storage b)
  /\ (PyStr.lower c <> "start" ->
      PyStr.lower c <> "cancel" \/ conversations b !! effective_user u = None ->
      process_update u b = (b, mk_outcome [] None)).
Proof.
  intros Hcmd. unfold process_update, route. rewrite Hcmd.
  assert (Hsessions : forall uid,
            default ∅ (<[effective_user u := session_of b (effective_user u)]> (sessions b)
                         !! uid) = session_of b uid).
  { intros uid. destruct (decide (uid = effective_user u)) as [->|Hne].
    - by rewrite lookup_insert_eq.
    - by rewrite lookup_insert_ne. }
  split_and!.
  - intros Hstart. rewrite decide_True by done.
    unfold handle. cbn [handler_of call]. unfold start. run_monad.
    cbn [fst snd conversations sessions storage].
    split_and!; try done; intros uid; unfold session_of at 1; cbn [sessions];
      apply Hsessions.
  - intros Hcancel [s Hs]. rewrite decide_False by (rewrite Hcancel; discriminate).
    rewrite Hs. rewrite decide_True by done.
    unfold handle. cbn [handler_of call]. unfold cancel. run_monad.
    cbn [fst snd conversations sessions storage].
    split_and!; try done; intros uid; unfold session_of at 1; cbn [sessions];
      apply Hsessions.
  - intros Hstart Hother. rewrite decide_False by done.
    destruct (conversations b !! effective_user u) as [s|]; [|done].
    destruct Hother as [Hcancel|Hnone]; [|done]. by rewrite decide_False.
Qed.

Lemma command_handling_witness :
  command (slash 5 "START") = Some "START" /\
  PyStr.lower "START" = "start" /\
  snd (process_update (slash 5 "START") in_review)
    = mk_outcome [Message welcome_text main_keyboard true] None /\
  conversations (fst (process_update (slash 5 "START") in_review)) !! 5
    = Some CONFIRM_PRESCRIPTION /\
  conversations (fst (process_update (slash 5 "Cancel") in_review)) !! 5 = None /\
  process_update (slash 5 "help") in_review = (in_review, mk_outcome [] None).
Proof.
  assert (H : command (slash 5 "START") = Some "START") by reflexivity.
  assert (Hl : PyStr.lower "START" = "start") by reflexivity.
  assert (H' : command (slash 5 "help") = Some "help") by reflexivity.
  assert (H'' : command (slash 5 "Cancel") = Some "Cancel") by reflexivity.
  split_and!; [exact H | exact Hl | | | |].
  - exact (proj1 (proj1 (command_handling (slash 5 "START") in_review "START" H) Hl)).
  - destruct (proj1 (command_handling (slash 5 "START") in_review "START" H) Hl)
      as (_ & Hconv & _).
    rewrite Hconv. reflexivity.
  - destruct (proj1 (proj2 (command_handling (slash 5 "Cancel") in_review "Cancel" H''))
                eq_refl (ex_intro _ CONFIRM_PRESCRIPTION eq_refl))
      as (_ & Hconv & _).
    rewrite Hconv. reflexivity.
  - apply (proj2 (proj2 (command_handling (slash 5 "help") in_review "help" H')));
      [discriminate | left; discriminate].
Defined.

(* ===================================================================== *)
(** * Entering the age *)
(* ===================================================================== *)

Lemma patient_age_result (u : Update) (w : World) :
  exists r,
    patient_age u w =
      match PyStr.py_int (text u) with
      | Some age =>
          (mk_world (<["patient_age" := VInt age]> (user_data w)) (database w)
             (outbox w ++ [r]), Ok (To PATIENT_PHONE))
      | None =>
          (mk_world (user_data w) (database w)
             (outbox w ++ [Message "Please enter a valid age (number only):" NoMarkup false]),
           Ok (To PATIENT_AGE))
      end.
Proof.
  destruct w as [ud d o]. unfold patient_age.
  destruct (PyStr.py_int (text u)); run_monad;
    [eexists; reflexivity | exists SELECT_AGAIN; reflexivity].
Qed.

(** X13: the age has no range.  In state [PATIENT_AGE] whatever [int]
    reads from the text is stored as the age and the phone is asked for:
    so for the decimal text of any integer of at most 4300 digits,
    negative ones and zero too, and for digits of other scripts.  A text
    [int] refuses is answered with the request for a number and changes
    neither the state nor any data. *)
Theorem age_entry (u : Update) (b : Bot) :
  conversations b !! effective_user u = Some PATIENT_AGE ->
  command u = None ->
  (forall n : Z,
     PyStr.py_int (text u) = Some n ->
     conversations (fst (process_update u b)) !! effective_user u = Some PATIENT_PHONE /\
     session_of (fst (process_update u b)) (effective_user u) !! "patient_age"
       = Some (VInt n) /\
     raised (snd (process_update u b)) = None)
  /\ (forall n : Z,
        Z.abs n < 10 ^ 4300 -> text u = PyStr.str_of_int n ->
        PyStr.py_int (text u) = Some n)
  /\ (PyStr.py_int (text u) = None ->
      snd (process_update u b) =
        mk_outcome [Message "Please enter a valid age (number only):" NoMarkup false] None /\
      conversations (fst (process_update u b)) !! effective_user u = Some PATIENT_AGE /\
      (forall uid, session_of (fst (process_update u b)) uid = session_of b uid) /\
      storage (fst (process_update u b)) = storage b).
Proof.
  intros Hst Hcmd. rewrite (process_state u b PATIENT_AGE Hst Hcmd).
  destruct (patient_age_result u (world_of b u)) as [r Hr]. split_and!.
  - intros n Ht. rewrite Ht in Hr.
    erewrite handle_in_conversation by exact Hr. cbn. split_and!; try done.
    + apply lookup_insert_eq.
    + unfold session_of. cbn. rewrite lookup_insert_eq. cbn. apply lookup_insert_eq.
  - intros n Hn ->. apply (py_int_str_of_int 4300); [apply le_n | exact Hn].
  - intros Hnone. rewrite Hnone in Hr.
    erewrite handle_in_conversation by exact Hr. cbn. split_and!; try done.
    + apply lookup_insert_eq.
    + intros uid. unfold session_of. cbn.
      destruct (decide (uid = effective_user u)) as [->|Hne].
      * by rewrite lookup_insert_eq.
      * by rewrite lookup_insert_ne.
Qed.

Lemma age_entry_witness :
  conversations (fst (run [message 5 ADD_NEW_PATIENT; message 5 "Jane Doe"] (started empty_db)))
    !! effective_user (message 5 "-3") = Some PATIENT_AGE /\
  command (message 5 "-3") = None /\
  PyStr.py_int (text (message 5 "-3")) = Some (-3) /\
  session_of
    (fst (process_update (message 5 "-3")
            (fst (run [message 5 ADD_NEW_PATIENT; message 5 "Jane Doe"] (started empty_db)))))
    (effective_user (message 5 "-3")) !! "patient_age" = Some (VInt (-3)).
Proof.
  assert (H1 : conversations
                 (fst (run [message 5 ADD_NEW_PATIENT; message 5 "Jane Doe"]
                         (started empty_db)))
                 !! effective_user (message 5 "-3") = Some PATIENT_AGE) by reflexivity.
  assert (H2 : command (message 5 "-3") = None) by reflexivity.
  assert (H3 : PyStr.py_int (text (message 5 "-3")) = Some (-3)) by reflexivity.
  split_and!; [exact H1 | exact H2 | exact H3 |].
  exact (proj1 (proj2 (proj1 (age_entry (message 5 "-3") _ H1 H2) (-3) H3))).
Defined.

(** An age in Arabic-Indic digits is read as [int] reads it; a text
    with a control character before the digits is refused. *)
Example age_in_other_digits :
  PyStr.py_int "٤٢" = Some 42 /\
  PyStr.py_int (String (ascii_of_nat 28) "34") = None /\
  PyStr.strip (String (ascii_of_nat 28) "34") = "34".
Proof. repeat split; reflexivity. Qed.

(* ===================================================================== *)
(** * The conversation graph *)
(* ===================================================================== *)

(** X14: a plain message moves a conversation along the edges of the
    graph only: the name always leads to the age, the diagnosis always
    to the prescription prompt, and the states that can repeat are the
    age, the phone (when the handler raises), the patient selection and
    the review. *)
Theorem transitions (u : Update) (b : Bot) (s : State) :
  conversations b !! effective_user u = Some s ->
  command u = None ->
  conversations (fst (process_update u b)) !! effective_user u ∈ successors s.
Proof.
  intros Hst Hcmd. rewrite (process_state u b s Hst Hcmd).
  unfold handle. fold (world_of b u). cbn [handler_of].
  destruct (world_of b u) as [ud d o].
  destruct s; cbn [states call successors];
    unfold patient_name, patient_age, patient_phone, patient_diagnosis,
      prescription_input, save_prescription, cancel;
    run_monad;
    repeat (case_match; simplify_eq/=);
    cbn [fst snd conversations];
    rewrite ?lookup_insert_eq, ?lookup_delete_eq, ?Hst;
    apply list_elem_of_In; cbn [In]; tauto.
Qed.

Lemma transitions_witness :
  conversations in_review !! effective_user (message 5 EDIT) = Some CONFIRM_PRESCRIPTION /\
  command (message 5 EDIT) = None /\
  conversations (fst (process_update (message 5 EDIT) in_review))
    !! effective_user (message 5 EDIT) ∈ successors CONFIRM_PRESCRIPTION.
Proof.
  assert (H1 : conversations in_review !! effective_user (message 5 EDIT)
               = Some CONFIRM_PRESCRIPTION) by reflexivity.
  assert (H2 : command (message 5 EDIT) = None) by reflexivity.
  split_and!; [exact H1 | exact H2 |].
  exact (transitions (message 5 EDIT) in_review CONFIRM_PRESCRIPTION H1 H2).
Defined.

(* ===================================================================== *)
(** * One line of a prescription *)
(* ===================================================================== *)

Lemma startswith_pipe_lower (c : ascii) (s s' : string) :
  PyStr.startswith "|" (String (PyStr.lower_ascii c) s) = PyStr.startswith "|" (String c s').
Proof.
  unfold PyStr.startswith. cbn [PyStr.prefix_rest].
  by destruct c as [[] [] [] [] [] [] [] []].
Qed.

Lemma contains_pipe_lower (s : string) :
  PyStr.contains "|" (PyStr.lower s) = PyStr.contains "|" s.
Proof.
  induction s as [|c s IH]; [reflexivity|].
  cbn [PyStr.lower PyStr.contains]. by rewrite IH, (startswith_pipe_lower c _ s).
Qed.

Lemma contains_pipe_app (a rest : string) :
  PyStr.contains "|" (a +:+ "|" +:+ rest) = true.
Proof.
  induction a as [|c a IH]; [reflexivity|].
  rewrite app_String. cbn [PyStr.contains]. by rewrite IH, orb_true_r.
Qed.

(** A text with a pipe is not the template keyword. *)
Lemma pipe_not_keyword (message_text : string) :
  PyStr.contains "|" message_text = true -> PyStr.lower message_text <> "h.pylori".
Proof.
  intros Hpipe Hkw. rewrite <- contains_pipe_lower, Hkw in Hpipe. discriminate Hpipe.
Qed.

(** X15: one line as the prompt asks for it.  A message that is trimmed
    already, has no line break and consists of four segments without a
    pipe, joined by pipes, parses to exactly one medication: the four
    segments, each trimmed, as name, dosage, quantity and instructions. *)
Theorem single_line_prescription (a b c d : string) :
  PyStr.contains "|" a = false -> PyStr.contains "|" b = false ->
  PyStr.contains "|" c = false -> PyStr.contains "|" d = false ->
  PyStr.contains nl (medication_line a b c d) = false ->
  PyStr.strip (medication_line a b c d) = medication_line a b c d ->
  parse_medications (medication_line a b c d) =
    [mk_med (PyStr.strip a) (PyStr.strip b) (PyStr.strip c) (PyStr.strip d)].
Proof.
  intros Ha Hb Hc Hd Hnl Hstrip. unfold parse_medications.
  rewrite decide_False by (apply pipe_not_keyword, contains_pipe_app).
  rewrite Hstrip, (split_no_separator nl _ Hnl). cbn [foldl].
  rewrite parse_line_entry. unfold medication_line.
  by rewrite (four_segment_line a b c d Ha Hb Hc Hd).
Qed.

Lemma single_line_prescription_witness :
  PyStr.strip (medication_line "Zinc 20mg " " 20mg " " 5 tablets " " at night")
    = medication_line "Zinc 20mg " " 20mg " " 5 tablets " " at night" /\
  parse_medications "Zinc 20mg | 20mg | 5 tablets | at night" =
    [mk_med "Zinc 20mg" "20mg" "5 tablets" "at night"].
Proof.
  assert (H : PyStr.strip (medication_line "Zinc 20mg " " 20mg " " 5 tablets " " at night")
              = medication_line "Zinc 20mg " " 20mg " " 5 tablets " " at night")
    by reflexivity.
  split; [exact H|].
  exact (single_line_prescription "Zinc 20mg " " 20mg " " 5 tablets " " at night"
           eq_refl eq_refl eq_refl eq_refl eq_refl H).
Defined.

(* ===================================================================== *)
(** * Whose rows a user is shown *)
(* ===================================================================== *)

Lemma prescriptions_of_own (uid : Z) (d : DB) (rx : PrescriptionRow) (pt : PatientRow) :
  (rx, pt) ∈ prescriptions_of uid d ->
  rx ∈ prescriptions d /\ pt ∈ patients d /\
  p_id pt = rx_patient_id rx /\ p_telegram_user_id pt = uid.
Proof.
  unfold prescriptions_of. intros H.
  apply list_elem_of_omap in H as (rx' & Hrx & Hsome).
  destruct (patient_by_id (rx_patient_id rx') d) as [pt'|] eqn:Hpt; [|done].
  case_decide as Huid; [|done]. injection Hsome as -> ->.
  unfold patient_by_id in Hpt. apply head_Some_elem_of in Hpt.
  apply list_elem_of_filter in Hpt as [Hid Hin]. done.
Qed.

(** X16: what a user is offered or shown is read from rows of that
    user's patients only: the patients on the keyboard of
    [create_prescription_start] and in the listing of [view_patients],
    the patients [handle_search] finds, and the patient of every
    prescription [view_prescriptions] lists. *)
Theorem listings_own (uid : Z) (n : nat) (term : string) (d : DB) :
  (forall p, p ∈ recent_patients uid n d -> p ∈ patients d /\ p_telegram_user_id p = uid)
  /\ (forall p, p ∈ search_patients uid term d ->
                p ∈ patients d /\ p_telegram_user_id p = uid)
  /\ (forall rx pt, (rx, pt) ∈ recent_prescriptions uid n d ->
                    rx ∈ prescriptions d /\ pt ∈ patients d /\
                    p_id pt = rx_patient_id rx /\ p_telegram_user_id pt = uid).
Proof.
  split_and!.
  - apply recent_patients_own.
  - intros p Hp. unfold search_patients in Hp.
    apply list_elem_of_filter in Hp. tauto.
  - intros rx pt H. unfold recent_prescriptions in H.
    apply (subseteq_take n) in H. apply elem_of_order_by_created_desc in H.
    by apply prescriptions_of_own.
Qed.
